(** * AgentOS backend: a shallow embedding of the delivery, sales, gateway,
    audit and WebSocket fan-out code, with the properties of its spec. *)

From Stdlib Require Import String Ascii List ZArith QArith Qround Lia Permutation Sorting.Permutation Sorted.
From stdpp Require Import base gmap strings sorting.
Import ListNotations.
Open Scope string_scope.

(* ------------------------------------------------------------------ *)
(** ** Python string helpers *)

Module Py.

(** Decimal rendering of a non-negative integer, as [str(n)] / f"{n}". *)
Definition digit_char (d : nat) : ascii := ascii_of_nat (48 + d).

Fixpoint digits_rev (fuel n : nat) : list ascii :=
  match fuel with
  | O => []
  | S f => if Nat.ltb n 10 then [digit_char n]
           else digit_char (Nat.modulo n 10) :: digits_rev f (Nat.div n 10)
  end.

Definition str_of_nat (n : nat) : string :=
  string_of_list_ascii (rev (digits_rev (S n) n)).

(** [str(z)] for a Python int. *)
Definition str_of_Z (z : Z) : string :=
  if (z <? 0)%Z then String "-" (str_of_nat (Z.to_nat (- z)))
  else str_of_nat (Z.to_nat z).

(** [c.lower()] on an ASCII character. *)
Definition lower_char (c : ascii) : ascii :=
  let n := nat_of_ascii c in
  if andb (Nat.leb 65 n) (Nat.leb n 90) then ascii_of_nat (n + 32) else c.

Fixpoint lower (s : string) : string :=
  match s with
  | EmptyString => EmptyString
  | String c r => String (lower_char c) (lower r)
  end.

(** Python's [needle in hay] for strings. *)
Fixpoint is_substring (needle hay : string) : bool :=
  if String.prefix needle hay then true
  else match hay with
       | EmptyString => false
       | String _ r => is_substring needle r
       end.

(** [sep.join(xs)]. *)
Fixpoint join (sep : string) (xs : list string) : string :=
  match xs with
  | [] => ""
  | [x] => x
  | x :: r => x ++ sep ++ join sep r
  end.

(** [sorted(xs)] on strings: code-point lexicographic order, as
    [String.leb]; insertion sort. *)
Fixpoint insert_sorted (x : string) (l : list string) : list string :=
  match l with
  | [] => [x]
  | y :: r => if String.leb x y then x :: y :: r else y :: insert_sorted x r
  end.

Fixpoint sorted (l : list string) : list string :=
  match l with
  | [] => []
  | x :: r => insert_sorted x (sorted r)
  end.

(** [bson.ObjectId.is_valid] on a [str]: exactly 24 hexadecimal characters. *)
Definition is_hex (c : ascii) : bool :=
  let n := nat_of_ascii c in
  orb (andb (Nat.leb 48 n) (Nat.leb n 57))
      (orb (andb (Nat.leb 97 n) (Nat.leb n 102)) (andb (Nat.leb 65 n) (Nat.leb n 70))).

Definition objectid_is_valid (s : string) : bool :=
  Nat.eqb (String.length s) 24 && forallb is_hex (list_ascii_of_string s).

(** A fresh ObjectId string (24 hex digits) for the [n]-th insertion. *)
Definition oid_of_nat (n : nat) : string :=
  let d := str_of_nat n in
  String.append (string_of_list_ascii (repeat "0"%char (24 - String.length d))) d.

End Py.

(* ------------------------------------------------------------------ *)
(** ** JSON-like values (Python dict/list/str/int/float/bool/None) *)

Set Warnings "-register-all".

Inductive Json : Type :=
| JNull
| JBool (b : bool)
| JInt (z : Z)
| JFloat (q : Q)
| JStr (s : string)
| JList (l : list Json)
| JDict (kvs : list (string * Json))   (** an insertion-ordered dict *)
| JOther (type_name : string).          (** any other Python object *)

(** [d.get(k)] on a dict, first binding. *)
Definition dict_get (kvs : list (string * Json)) (k : string) : option Json :=
  option_map snd (List.find (fun kv => String.eqb (fst kv) k) kvs).

(** Python truthiness of a value. *)
Definition truthy (v : Json) : bool :=
  match v with
  | JNull => false
  | JBool b => b
  | JInt z => negb (Z.eqb z 0)
  | JFloat q => negb (Qeq_bool q 0)
  | JStr s => negb (String.eqb s "")
  | JList l => negb (Nat.eqb (length l) 0)
  | JDict kvs => negb (Nat.eqb (length kvs) 0)
  | JOther _ => true
  end.

(* ------------------------------------------------------------------ *)
(** ** Documents of the store (schemas in app/db/schemas) *)

(** [DeliveryStatus] (delivery_schemas.py). *)
Inductive DeliveryStatus : Type :=
| PENDING_ASSIGNMENT | ASSIGNED | PICKING_UP | IN_TRANSIT | NEAR_DESTINATION
| DELIVERED | FAILED_ATTEMPT | FAILED_DELIVERY | CANCELLED | RETURNED.

Definition delivery_status_value (s : DeliveryStatus) : string :=
  match s with
  | PENDING_ASSIGNMENT => "pending_assignment" | ASSIGNED => "assigned"
  | PICKING_UP => "picking_up" | IN_TRANSIT => "in_transit"
  | NEAR_DESTINATION => "near_destination" | DELIVERED => "delivered"
  | FAILED_ATTEMPT => "failed_attempt" | FAILED_DELIVERY => "failed_delivery"
  | CANCELLED => "cancelled" | RETURNED => "returned"
  end.

Definition delivery_status_eqb (a b : DeliveryStatus) : bool :=
  String.eqb (delivery_status_value a) (delivery_status_value b).

(** A GeoJSON point, [coordinates = [longitude, latitude]]. *)
Record LocationPoint := { lp_coordinates : Q * Q }.

Record TrackingEventDoc := {
  ev_timestamp : Z;
  ev_status : DeliveryStatus;
  ev_description : string;
  ev_location : option LocationPoint;
  ev_actor_id : option string }.

Record DeliverySessionDoc := {
  d_id : string;
  d_sale_id : string;
  d_client_profile_id : string;
  d_courier_profile_id : option string;
  d_current_status : DeliveryStatus;
  d_tracking_history : list TrackingEventDoc;
  d_current_location : option LocationPoint;
  d_expire_at : option Z;
  d_updated_at : Z }.

(** [SaleStatus] (sale_schemas.py). *)
Inductive SaleStatus : Type :=
| PENDING_PAYMENT | PROCESSING | COMPLETED | SHIPPING | SALE_DELIVERED
| SALE_CANCELLED | REFUNDED | SALE_ERROR.

Definition sale_status_value (s : SaleStatus) : string :=
  match s with
  | PENDING_PAYMENT => "pending_payment" | PROCESSING => "processing"
  | COMPLETED => "completed" | SHIPPING => "shipping"
  | SALE_DELIVERED => "delivered" | SALE_CANCELLED => "cancelled"
  | REFUNDED => "refunded" | SALE_ERROR => "error"
  end.

(** Monetary [float] fields are taken as their exact binary values in [Q];
    the arithmetic of the code on them is exact for the dyadic inputs used
    below. *)
Record SaleItem := {
  it_product_id : string;
  it_sku : string;
  it_name : string;
  it_quantity : Z;
  it_unit_price : Q;
  it_total_price : Q }.

Record SaleDoc := {
  s_id : string;
  s_client_id : string;
  s_agent_id : string;
  s_items : list SaleItem;
  s_total_amount : Q;
  s_currency : string;
  s_status : SaleStatus;
  s_created_at : Z }.

Record ProductDoc := {
  p_id : string;
  p_sku : string;
  p_name : string;
  p_available_stock : Z;
  p_standard_selling_price : Q;
  p_version : Z }.

Record ProfileDoc := { pr_id : string; pr_is_active : bool }.

(** An audit document of [AuditService.log_event]. *)
Record AuditEntry := {
  au_timestamp : Z;
  au_actor_id : string;
  au_action : string;
  au_entity_type : option string;
  au_entity_id : option string;
  au_success : bool;
  au_details : list (string * Json);
  au_trace_id : string }.

(** A document of the MCP executor's [audit_log] collection
    ([AuditLogEntry] of [log_audit_event]). *)
Record McpAuditEntry := {
  ma_trace_id : string;
  ma_timestamp : Z;
  ma_user_id : string;
  ma_user_roles : list string;
  ma_tool_name : string;
  ma_parameters : Json;
  ma_success : bool;
  ma_result : option Json;
  ma_error_message : option string }.

(** A coroutine handed to [asyncio.create_task]: the only one of the
    modelled code is [_trigger_post_sale_actions(sale_id, actor_id)]. *)
Inductive Task : Type :=
| PostSaleActions (sale_id actor_id : string).

(** The shared Mongo and Redis state.  [faults] names the store operations
    that raise (a database error) when issued; [queries] logs every store
    operation issued, most recent first; [published] logs Redis publishes
    as (channel, payload); [txn] is the write buffer of an open session
    transaction; [mcp_audit_log] is the MCP executor's [audit_log]
    collection; [tasks] holds the tasks scheduled on the event loop and not
    yet run, oldest first. *)
Record DB := {
  deliveries : gmap string DeliverySessionDoc;
  sales : list SaleDoc;
  products : gmap string ProductDoc;    (** keyed by SKU *)
  profiles : gmap string ProfileDoc;
  audit_logs : list AuditEntry;
  published : list (string * Json);
  queries : list string;
  faults : list string;
  redis_up : bool;
  next_oid : nat;
  txn : option (list ProductDoc * list SaleDoc);
  mcp_audit_log : list McpAuditEntry;
  tasks : list Task }.

(** Exceptions raised along the modelled paths. *)
Inductive Exc : Type :=
| RepositoryError (msg : string)
| HTTPException (status_code : Z) (detail : string)
| DeliveryNotFoundError (delivery_id : string)
| InvalidDeliveryStatusError (delivery_id current action : string)
| DeliveryError (msg : string)
| ProductNotFoundError (sku : string)
| ClientNotFoundError (client_id : string)
| InsufficientStockError (sku : string) (requested available : Z)
| DuplicateSaleError (client_id agent_id : string)
| SaleCreationError (msg : string)
| ProfileNotFoundError (identifier : string)
(** a driver error of Motor / PyMongo, with its message *)
| PyMongoError (msg : string)
(** Python's built-in exceptions met on these paths *)
| NameError (name : string)
| AttributeError (obj attr : string)
| TypeError (msg : string)
| NotImplementedError (msg : string).

(** [str(e)], as the f-strings [f"...: {e}"] render an exception. *)
Definition exc_str (e : Exc) : string :=
  match e with
  | RepositoryError m | DeliveryError m | SaleCreationError m | PyMongoError m
  | TypeError m | NotImplementedError m => m
  | HTTPException c d => Py.str_of_Z c ++ ": " ++ d
  | DeliveryNotFoundError i => "Delivery session with ID '" ++ i ++ "' not found."
  | InvalidDeliveryStatusError i cur act =>
      "Action '" ++ act ++ "' not allowed for delivery '" ++ i ++
      "' with current status '" ++ cur ++ "'."
  | ProductNotFoundError sku => "Product with SKU '" ++ sku ++ "' not found."
  | ClientNotFoundError c => "Client with ID '" ++ c ++ "' not found."
  | InsufficientStockError sku r a =>
      "Insufficient stock for SKU '" ++ sku ++ "'. Requested: " ++ Py.str_of_Z r ++
      ", Available: " ++ Py.str_of_Z a ++ "."
  | DuplicateSaleError c a =>
      "Potential duplicate sale detected for client '" ++ c ++ "' by agent '" ++ a ++ "'."
  | ProfileNotFoundError i => "Profile not found for identifier: " ++ i
  | NameError n => "name '" ++ n ++ "' is not defined"
  | AttributeError o a => "'" ++ o ++ "' object has no attribute '" ++ a ++ "'"
  end.

(* ------------------------------------------------------------------ *)
(** ** A state and exception monad for the async service code *)

Definition M (A : Type) : Type := DB -> (Exc + A) * DB.

Definition ret {A} (a : A) : M A := fun db => (inr a, db).
Definition raise {A} (e : Exc) : M A := fun db => (inl e, db).
Definition bind {A B} (m : M A) (k : A -> M B) : M B :=
  fun db => match m db with
            | (inl e, db') => (inl e, db')
            | (inr a, db') => k a db'
            end.
(** [try: m except e: h e] *)
Definition try_except {A} (m : M A) (h : Exc -> M A) : M A :=
  fun db => match m db with
            | (inl e, db') => h e db'
            | ok => ok
            end.
Definition gets {A} (f : DB -> A) : M A := fun db => (inr (f db), db).
Definition modify (f : DB -> DB) : M unit := fun db => (inr tt, f db).

Notation "'let*' x ':=' m 'in' k" := (bind m (fun x => k))
  (at level 200, x name, m at level 100, k at level 200).
Notation "m ;; k" := (bind m (fun _ => k)) (at level 100, right associativity).

Definition set_deliveries (f : gmap string DeliverySessionDoc -> gmap string DeliverySessionDoc) (db : DB) : DB :=
  {| deliveries := f (deliveries db); sales := sales db; products := products db;
     profiles := profiles db; audit_logs := audit_logs db; published := published db;
     queries := queries db; faults := faults db; redis_up := redis_up db;
     next_oid := next_oid db; txn := txn db;
     mcp_audit_log := mcp_audit_log db; tasks := tasks db |}.
Definition set_sales (f : list SaleDoc -> list SaleDoc) (db : DB) : DB :=
  {| deliveries := deliveries db; sales := f (sales db); products := products db;
     profiles := profiles db; audit_logs := audit_logs db; published := published db;
     queries := queries db; faults := faults db; redis_up := redis_up db;
     next_oid := next_oid db; txn := txn db;
     mcp_audit_log := mcp_audit_log db; tasks := tasks db |}.
Definition set_products (f : gmap string ProductDoc -> gmap string ProductDoc) (db : DB) : DB :=
  {| deliveries := deliveries db; sales := sales db; products := f (products db);
     profiles := profiles db; audit_logs := audit_logs db; published := published db;
     queries := queries db; faults := faults db; redis_up := redis_up db;
     next_oid := next_oid db; txn := txn db;
     mcp_audit_log := mcp_audit_log db; tasks := tasks db |}.
Definition add_audit (e : AuditEntry) (db : DB) : DB :=
  {| deliveries := deliveries db; sales := sales db; products := products db;
     profiles := profiles db; audit_logs := e :: audit_logs db; published := published db;
     queries := queries db; faults := faults db; redis_up := redis_up db;
     next_oid := next_oid db; txn := txn db;
     mcp_audit_log := mcp_audit_log db; tasks := tasks db |}.
Definition add_published (m : string * Json) (db : DB) : DB :=
  {| deliveries := deliveries db; sales := sales db; products := products db;
     profiles := profiles db; audit_logs := audit_logs db; published := m :: published db;
     queries := queries db; faults := faults db; redis_up := redis_up db;
     next_oid := next_oid db; txn := txn db;
     mcp_audit_log := mcp_audit_log db; tasks := tasks db |}.
Definition add_query (q : string) (db : DB) : DB :=
  {| deliveries := deliveries db; sales := sales db; products := products db;
     profiles := profiles db; audit_logs := audit_logs db; published := published db;
     queries := q :: queries db; faults := faults db; redis_up := redis_up db;
     next_oid := next_oid db; txn := txn db;
     mcp_audit_log := mcp_audit_log db; tasks := tasks db |}.
Definition bump_oid (db : DB) : DB :=
  {| deliveries := deliveries db; sales := sales db; products := products db;
     profiles := profiles db; audit_logs := audit_logs db; published := published db;
     queries := queries db; faults := faults db; redis_up := redis_up db;
     next_oid := S (next_oid db); txn := txn db;
     mcp_audit_log := mcp_audit_log db; tasks := tasks db |}.
Definition set_txn (t : option (list ProductDoc * list SaleDoc)) (db : DB) : DB :=
  {| deliveries := deliveries db; sales := sales db; products := products db;
     profiles := profiles db; audit_logs := audit_logs db; published := published db;
     queries := queries db; faults := faults db; redis_up := redis_up db;
     next_oid := next_oid db; txn := t;
     mcp_audit_log := mcp_audit_log db; tasks := tasks db |}.

Definition add_mcp_audit (e : McpAuditEntry) (db : DB) : DB :=
  {| deliveries := deliveries db; sales := sales db; products := products db;
     profiles := profiles db; audit_logs := audit_logs db; published := published db;
     queries := queries db; faults := faults db; redis_up := redis_up db;
     next_oid := next_oid db; txn := txn db;
     mcp_audit_log := e :: mcp_audit_log db; tasks := tasks db |}.
Definition add_task (t : Task) (db : DB) : DB :=
  {| deliveries := deliveries db; sales := sales db; products := products db;
     profiles := profiles db; audit_logs := audit_logs db; published := published db;
     queries := queries db; faults := faults db; redis_up := redis_up db;
     next_oid := next_oid db; txn := txn db;
     mcp_audit_log := mcp_audit_log db; tasks := (tasks db ++ [t])%list |}.

(** Issue a store operation: it is logged, and raises a driver error when
    faulted. *)
Definition store_op (op : string) : M unit :=
  fun db => if existsb (String.eqb op) (faults db)
            then (inl (PyMongoError op), add_query op db)
            else (inr tt, add_query op db).

(** [asyncio.create_task(coro)]: the task is scheduled on the event loop;
    the caller goes on without running it. *)
Definition create_task (t : Task) : M unit := modify (add_task t).

(* ------------------------------------------------------------------ *)
(** ** Shared services: NotificationService and AuditService *)

(** [settings.BACKEND_PUBLISH_EVENT_CHANNEL] (core/config.py). *)
Definition BACKEND_PUBLISH_EVENT_CHANNEL : string := "backend.events".

(** [NotificationService.publish]: best effort, returns whether it published;
    [json.dumps(payload, default=str)] never fails on these values. *)
Definition publish (channel : string) (payload : Json) : M bool :=
  fun db => if redis_up db then (inr true, add_published (channel, payload) db)
            else (inr false, db).

(** [NotificationService.publish_websocket_update]. *)
Definition publish_websocket_update (target target_id event_type : string)
    (data : list (string * Json)) : M unit :=
  let payload := JDict [("__target__", JStr target); ("__target_id__", JStr target_id);
                        ("event_type", JStr event_type); ("data", JDict data)] in
  let* _ := publish BACKEND_PUBLISH_EVENT_CHANNEL payload in ret tt.

(** [settings.AUDIT_LOG_ENABLED]. *)
Definition AUDIT_LOG_ENABLED : bool := true.

(** [if not collection] on the [AsyncIOMotorCollection] of
    [AuditService._get_collection] (the database connected, so
    [get_database()] returns and the collection is set): Motor 3 collections
    refuse truth-value testing, [bool(collection)] raises. *)
Definition collection_bool_error : Exc :=
  NotImplementedError "Collection objects do not implement truth value testing or bool(). Please compare with None instead: collection is not None".
Definition collection_bool : M bool := raise collection_bool_error.

(** [AuditService.log_event]: disabled, [_get_collection] returns [None]
    and the call returns; enabled, the truth test of the collection comes
    before the entry is built (with [details or {}] as given) and inserted;
    an insertion failure is logged and swallowed. *)
Definition log_event (now : Z) (actor_id action : string) (entity_type entity_id : option string)
    (success : bool) (details : option (list (string * Json))) (trace_id : option string) : M unit :=
  if negb AUDIT_LOG_ENABLED then ret tt else
  let* collection_truthy := collection_bool in
  if negb collection_truthy then ret tt else
  let log_entry := {| au_timestamp := now; au_actor_id := actor_id; au_action := action;
                      au_entity_type := entity_type; au_entity_id := entity_id;
                      au_success := success; au_details := default [] details;
                      au_trace_id := default "N/A" trace_id |} in
  try_except (store_op "audit_logs.insert_one" ;; modify (add_audit log_entry))
             (fun _ => ret tt).

(* ------------------------------------------------------------------ *)
(** ** Delivery module (modules/delivery) *)

Module Delivery.




(** [DeliveryRepository.get_delivery_by_id].  [_map_doc] validates the
    stored document into [DeliverySessionDoc] (the stored documents are the
    model's, so it is the identity here); it reads no [settings]. *)
Definition get_delivery_by_id (delivery_id : string) : M (option DeliverySessionDoc) :=
  if negb (Py.objectid_is_valid delivery_id) then ret None else
  try_except (store_op "deliveries.find_one" ;; gets (fun db => deliveries db !! delivery_id))
             (fun e => raise (RepositoryError ("Error fetching delivery by ID: " ++ exc_str e))).



Definition location_json (l : option LocationPoint) : Json :=
  match l with
  | None => JNull
  | Some p => JDict [("type", JStr "Point");
                     ("coordinates", JList [JFloat (fst (lp_coordinates p)); JFloat (snd (lp_coordinates p))])]
  end.




(** The status code [DeliveryAgent.execute] gives an exception of the
    [update_status] action. *)
Definition agent_status_code (e : Exc) : Z :=
  match e with
  | DeliveryNotFoundError _ => 404
  | InvalidDeliveryStatusError _ _ _ => 409
  | HTTPException c _ => c
  | _ => 500
  end.

(** A field of the [update_data] dict of [DeliveryRepository.update_delivery],
    applied by its [$set]. *)
Inductive DeliverySet : Type :=
| SetCurrentLocation (l : LocationPoint)
| SetUpdatedAt (t : Z)
| SetCurrentStatus (s : DeliveryStatus)
| SetCourierProfileId (c : option string).

Definition apply_set (d : DeliverySessionDoc) (u : DeliverySet) : DeliverySessionDoc :=
  {| d_id := d_id d; d_sale_id := d_sale_id d; d_client_profile_id := d_client_profile_id d;
     d_courier_profile_id := match u with SetCourierProfileId c => c | _ => d_courier_profile_id d end;
     d_current_status := match u with SetCurrentStatus s => s | _ => d_current_status d end;
     d_tracking_history := d_tracking_history d;
     d_current_location := match u with SetCurrentLocation l => Some l | _ => d_current_location d end;
     d_expire_at := d_expire_at d;
     d_updated_at := match u with SetUpdatedAt t => t | _ => d_updated_at d end |}.

(** [DeliveryRepository.update_delivery]; [now] is its
    [datetime.now(timezone.utc)], written into [update_data["updated_at"]]
    (a dict: an [updated_at] already there is overwritten). *)
Definition update_delivery (now : Z) (delivery_id : string) (update_data : list DeliverySet)
    : M (option DeliverySessionDoc) :=
  if negb (Py.objectid_is_valid delivery_id) then ret None else
  match update_data with
  | [] => get_delivery_by_id delivery_id
  | _ =>
    let update_data := (update_data ++ [SetUpdatedAt now])%list in
    try_except
      (store_op "deliveries.find_one_and_update" ;;
       fun db => match deliveries db !! delivery_id with
                 | None => (inr None, db)
                 | Some d =>
                     let d' := fold_left apply_set update_data d in
                     (inr (Some d'), set_deliveries (insert delivery_id d') db)
                 end)
      (fun e => raise (RepositoryError ("Error updating delivery: " ++ exc_str e)))
  end.

(** The statuses in which [update_courier_location] accepts a location. *)
Definition location_update_statuses : list DeliveryStatus :=
  [PICKING_UP; IN_TRANSIT; NEAR_DESTINATION; FAILED_ATTEMPT].

(** [delivery.courier_profile_id != courier_id] (an unassigned delivery has
    [None], which differs from every courier id). *)
Definition courier_assigned (d : DeliverySessionDoc) (courier_id : string) : bool :=
  match d_courier_profile_id d with Some c => String.eqb c courier_id | None => false end.

(** [DeliveryService.update_courier_location]; [now] is the repository's
    clock (see [update_delivery]) and [isoformat] renders [timestamp] as
    [timestamp.isoformat()]. *)
Definition update_courier_location (now : Z) (isoformat : Z -> string)
    (delivery_id courier_id : string) (location_data : LocationPoint) (timestamp : Z)
    : M DeliverySessionDoc :=
  let* delivery := get_delivery_by_id delivery_id in
  match delivery with
  | None => raise (DeliveryNotFoundError delivery_id)
  | Some d =>
    if negb (courier_assigned d courier_id)
    then raise (HTTPException 403 "Courier not assigned to this delivery.") else
    if negb (existsb (delivery_status_eqb (d_current_status d)) location_update_statuses)
    then raise (InvalidDeliveryStatusError delivery_id (delivery_status_value (d_current_status d))
                  "update location") else
    try_except
      (let* updated_delivery :=
         update_delivery now delivery_id [SetCurrentLocation location_data; SetUpdatedAt timestamp] in
       match updated_delivery with
       | None => raise (DeliveryError "Failed to update location after fetching.")
       | Some upd =>
           publish_websocket_update "user" (d_client_profile_id d) "delivery_location_update"
             [("delivery_id", JStr delivery_id); ("location", location_json (Some location_data));
              ("timestamp", JStr (isoformat timestamp))] ;;
           ret upd
       end)
      (fun e => match e with
                | RepositoryError _ => raise (DeliveryError ("Database error updating location: " ++ exc_str e))
                | _ => raise (DeliveryError ("Unexpected error updating location: " ++ exc_str e))
                end)
  end.

End Delivery.

(* ------------------------------------------------------------------ *)
(** ** Sales module (modules/sales) *)

Module Sales.

(** Python's [round(x, 2)] on the exact value [x]: to the nearest multiple
    of 1/100, ties to the even neighbour. *)
Definition round2 (x : Q) : Q :=
  let y := (x * 100)%Q in
  let n := Qfloor y in
  let fr := (y - inject_Z n)%Q in
  if negb (Qle_bool (1#2) fr) then (n # 100)%Q
  else if negb (Qle_bool fr (1#2)) then ((n + 1)%Z # 100)%Q
  else if Z.even n then (n # 100)%Q else ((n + 1)%Z # 100)%Q.

(** [settings.DUPLICATE_SALE_WINDOW_MINUTES] and [settings.CELERY_ENABLED]:
    [Settings] (core/config.py) declares neither field, and its
    [extra="ignore"] drops undeclared environment values, so reading either
    attribute of the instance raises [AttributeError]. *)
Definition settings_DUPLICATE_SALE_WINDOW_MINUTES : M Z :=
  raise (AttributeError "Settings" "DUPLICATE_SALE_WINDOW_MINUTES").
Definition settings_CELERY_ENABLED : M bool :=
  raise (AttributeError "Settings" "CELERY_ENABLED").

Record CreateSaleItemInput := { ci_sku : string; ci_quantity : Z }.

Record CreateSaleInput := {
  si_client_id : string;
  si_agent_id : string;
  si_items : list CreateSaleItemInput;
  si_currency : string }.

(** --- PeopleService.get_profile_by_id over PeopleRepository.get_profile_by_id *)

(** [PeopleRepository.get_profile_by_id]. *)
Definition repo_get_profile_by_id (profile_id : string) : M (option ProfileDoc) :=
  if negb (Py.objectid_is_valid profile_id) then ret None else
  try_except (store_op "profiles.find_one" ;; gets (fun db => profiles db !! profile_id))
             (fun e => raise (RepositoryError ("Error fetching profile by ID: " ++ exc_str e))).

(** [PeopleService.get_profile_by_id]: 404 with [str(ProfileNotFoundError)],
    503 with [f"Database error: {e}"], 500 otherwise. *)
Definition get_profile_by_id (profile_id : string) : M ProfileDoc :=
  try_except
    (let* profile := repo_get_profile_by_id profile_id in
     match profile with
     | None => raise (ProfileNotFoundError profile_id)
     | Some pr => ret pr
     end)
    (fun e => match e with
              | ProfileNotFoundError _ => raise (HTTPException 404 (exc_str e))
              | RepositoryError _ => raise (HTTPException 503 ("Database error: " ++ exc_str e))
              | _ => raise (HTTPException 500 "Internal server error.")
              end).

(** --- SaleRepository *)

(** The store's side of [insert_one]: through the open transaction when a
    session is passed, directly otherwise. *)
Definition write_sale (session : option unit) (s : SaleDoc) : M unit :=
  fun db => match session, txn db with
            | Some _, Some (ps, ss) => (inr tt, set_txn (Some (ps, (ss ++ [s])%list)) db)
            | _, _ => (inr tt, set_sales (fun l => (l ++ [s])%list) db)
            end.

(** [SaleRepository.create_sale(sale_data)]: insert, then read the
    document back under its fresh ObjectId.  [_map_doc] validates the
    document into [SaleDoc] (the identity on the model's documents); it reads
    no [settings]. *)
Definition repo_create_sale (session : option unit) (mk : string -> SaleDoc) : M (option SaleDoc) :=
  try_except
    (store_op "sales.insert_one" ;;
     let* n := gets next_oid in
     let s := mk (Py.oid_of_nat n) in
     modify bump_oid ;; write_sale session s ;;
     store_op "sales.find_one" ;; ret (Some s))
    (fun e => raise (RepositoryError ("Error creating sale: " ++ exc_str e))).

(** [SaleRepository.get_sale_by_id]. *)
Definition repo_get_sale_by_id (sale_id : string) : M (option SaleDoc) :=
  if negb (Py.objectid_is_valid sale_id) then ret None else
  try_except
    (store_op "sales.find_one" ;;
     gets (fun db => List.find (fun s => String.eqb (s_id s) sale_id) (sales db)))
    (fun e => raise (RepositoryError ("Error fetching sale by ID: " ++ exc_str e))).

(** The query of [find_recent_by_agent_and_client]:
    [agent_id], [client_id], [created_at >= cutoff], [status != cancelled]. *)
Definition recent_filter (agent_id client_id : string) (cutoff : Z) (s : SaleDoc) : bool :=
  String.eqb (s_agent_id s) agent_id && String.eqb (s_client_id s) client_id &&
  Z.leb cutoff (s_created_at s) &&
  negb (String.eqb (sale_status_value (s_status s)) (sale_status_value SALE_CANCELLED)).

(** [SaleRepository.find_recent_by_agent_and_client]; [now] is
    [datetime.now(timezone.utc)] and the result is sorted by
    [created_at] descending. *)
Definition find_recent_by_agent_and_client (now : Z) (agent_id client_id : string) (time_window : Z)
    : M (list SaleDoc) :=
  let cutoff := (now - time_window)%Z in
  try_except
    (store_op "sales.find" ;;
     gets (fun db => rev (List.filter (recent_filter agent_id client_id cutoff) (sales db))))
    (fun e => raise (RepositoryError ("Error fetching recent sales: " ++ exc_str e))).

(** --- ProductService.allocate_stock *)

(** Modelled from the spec: [ProductService.allocate_stock(sku, quantity)]
    of app/modules/products/service.py, which is not in the repository
    sources (§4.4 step 3): read the product by SKU (missing:
    [ProductNotFound]); [available_stock < quantity]: [InsufficientStock]
    with (sku, requested, available); else decrement [available_stock] and
    bump [version] by a compare-and-set on [version].  With one request in
    the model the compare-and-set matches on its first try.  The write goes
    through the session's transaction when a session is passed. *)
Definition allocate_stock (session : option unit) (sku : string) (quantity : Z) : M ProductDoc :=
  store_op "products.find_one" ;;
  let* p := gets (fun db => products db !! sku) in
  match p with
  | None => raise (ProductNotFoundError sku)
  | Some prod =>
    if (p_available_stock prod <? quantity)%Z
    then raise (InsufficientStockError sku quantity (p_available_stock prod))
    else
      let prod' := {| p_id := p_id prod; p_sku := p_sku prod; p_name := p_name prod;
                      p_available_stock := p_available_stock prod - quantity;
                      p_standard_selling_price := p_standard_selling_price prod;
                      p_version := p_version prod + 1 |}%Z in
      store_op "products.update_one" ;;
      (fun db => match session, txn db with
                 | Some _, Some (ps, ss) => (inr tt, set_txn (Some ((ps ++ [prod'])%list, ss)) db)
                 | _, _ => (inr tt, set_products (insert sku prod') db)
                 end) ;;
      ret prod'
  end.

(** --- Session transaction *)

(** [await self.db_client.start_session()]. *)
Definition start_session : M unit := store_op "client.start_session".

(** [session.with_transaction()] called with no argument:
    [AsyncIOMotorClientSession.with_transaction(coro, ...)] requires the
    coroutine function to run, so the call raises [TypeError] before the
    [async with] is entered, and the block under it never runs. *)
Definition with_transaction {A} (body : M A) : M A :=
  raise (TypeError "with_transaction() missing 1 required positional argument: 'coro'").

(** --- SalesService *)

(** [f"{i.sku}:{i.quantity}"] for a request item and for a stored item. *)
Definition input_item_key (i : CreateSaleItemInput) : string :=
  ci_sku i ++ ":" ++ Py.str_of_Z (ci_quantity i).
Definition sale_item_key (i : SaleItem) : string :=
  it_sku i ++ ":" ++ Py.str_of_Z (it_quantity i).

(** ["|".join(sorted(keys))]. *)
Definition signature (keys : list string) : string := Py.join "|" (Py.sorted keys).

(** [for sale in recent_sales: if sale_items_sig == new_items_sig: raise]. *)
Fixpoint scan_recent (client_id agent_id new_items_sig : string) (recent : list SaleDoc) : M unit :=
  match recent with
  | [] => ret tt
  | sale :: rest =>
      if String.eqb (signature (map sale_item_key (s_items sale))) new_items_sig
      then raise (DuplicateSaleError client_id agent_id)
      else scan_recent client_id agent_id new_items_sig rest
  end.

(** [SalesService._check_duplicate_sale]: the window is read from
    [settings] before the [try] (line 176); inside it a [RepositoryError] of
    the query is logged and swallowed ("Proceed for now"). *)
Definition check_duplicate_sale (now : Z) (agent_id client_id : string)
    (items : list CreateSaleItemInput) : M unit :=
  let* minutes := settings_DUPLICATE_SALE_WINDOW_MINUTES in
  let time_window := (minutes * 60)%Z in
  try_except
    (let* recent_sales := find_recent_by_agent_and_client now agent_id client_id time_window in
     match recent_sales with
     | [] => ret tt
     | _ => scan_recent client_id agent_id (signature (map input_item_key items)) recent_sales
     end)
    (fun e => match e with
              | RepositoryError _ => ret tt
              | _ => raise e
              end).

(** The item loop of [create_sale] (steps 3 and 4): allocate, price,
    [total_item_price = round(unit_price * quantity, 2)],
    [total_amount += total_item_price].  No session is passed to
    [allocate_stock], as in the code. *)
Fixpoint process_items (items : list CreateSaleItemInput) (processed : list SaleItem) (total_amount : Q)
    : M (list SaleItem * Q) :=
  match items with
  | [] => ret (processed, total_amount)
  | item_in :: rest =>
      let* updated_product := allocate_stock None (ci_sku item_in) (ci_quantity item_in) in
      let unit_price := p_standard_selling_price updated_product in
      let total_item_price := round2 (unit_price * inject_Z (ci_quantity item_in))%Q in
      let item := {| it_product_id := p_id updated_product; it_sku := p_sku updated_product;
                     it_name := p_name updated_product; it_quantity := ci_quantity item_in;
                     it_unit_price := unit_price; it_total_price := total_item_price |} in
      process_items rest (processed ++ [item])%list (total_amount + total_item_price)%Q
  end.

(** [SalesService._trigger_post_sale_actions]: audit, publish, then the
    [if settings.CELERY_ENABLED] test (both of its branches only log). *)
Definition trigger_post_sale_actions (now : Z) (sale_id actor_id : string) : M unit :=
  log_event now actor_id "create_sale" (Some "sale") (Some sale_id) true None None ;;
  publish_websocket_update "all" "sales_dashboard" "sale_created"
    [("sale_id", JStr sale_id); ("status", JStr (sale_status_value PROCESSING))] ;;
  let* celery_enabled := settings_CELERY_ENABLED in
  ret tt.

(** The event loop running a scheduled task; an exception of a task ends
    the task only ("Task exception was never retrieved"). *)
Definition run_task (now : Z) (t : Task) : M unit :=
  match t with
  | PostSaleActions sale_id actor_id =>
      try_except (trigger_post_sale_actions now sale_id actor_id) (fun _ => ret tt)
  end.

Definition sale_doc_of (now : Z) (sale_input : CreateSaleInput) (processed : list SaleItem)
    (total_amount : Q) (oid : string) : SaleDoc :=
  {| s_id := oid; s_client_id := si_client_id sale_input; s_agent_id := si_agent_id sale_input;
     s_items := processed; s_total_amount := round2 total_amount;
     s_currency := si_currency sale_input; s_status := PROCESSING; s_created_at := now |}.

(** The domain exceptions the transaction body re-raises as they are. *)
Definition is_domain_exc (e : Exc) : bool :=
  match e with
  | ProductNotFoundError _ | InsufficientStockError _ _ _ | DuplicateSaleError _ _
  | ClientNotFoundError _ => true
  | _ => false
  end.

(** [SalesService.create_sale].  The post-sale actions are scheduled with
    [asyncio.create_task] and not awaited: [create_sale] returns with the
    task pending in [tasks]. *)
Definition create_sale (now : Z) (sale_input : CreateSaleInput) : M SaleDoc :=
  let* client_profile := get_profile_by_id (si_client_id sale_input) in
  if negb (pr_is_active client_profile) then raise (ClientNotFoundError (si_client_id sale_input)) else
  check_duplicate_sale now (si_agent_id sale_input) (si_client_id sale_input) (si_items sale_input) ;;
  start_session ;;
  let* created_sale :=
    with_transaction
      (try_except
         (let* r := process_items (si_items sale_input) [] 0%Q in
          let (processed_items, total_amount) := r in
          let* created := repo_create_sale None (sale_doc_of now sale_input processed_items total_amount) in
          match created with
          | None => raise (SaleCreationError "Failed to save sale document in repository after processing items.")
          | Some s => ret s
          end)
         (fun e => if is_domain_exc e then raise e
                   else raise (SaleCreationError ("Unexpected error during transaction: " ++ exc_str e)))) in
  create_task (PostSaleActions (s_id created_sale) (si_agent_id sale_input)) ;;
  ret created_sale.

(** [SalesService.get_sale_by_id]. *)
Definition get_sale_by_id (sale_id : string) : M SaleDoc :=
  let* sale := repo_get_sale_by_id sale_id in
  match sale with
  | None => raise (HTTPException 404 "Sale not found.")
  | Some s => ret s
  end.

(** The status code [SalesAgent.execute] gives an exception. *)
Definition agent_status_code (e : Exc) : Z :=
  match e with
  | HTTPException c _ => c
  | InsufficientStockError _ _ _ | DuplicateSaleError _ _ => 409
  | ProductNotFoundError _ | ClientNotFoundError _ => 404
  | SaleCreationError _ => 400
  | _ => 500
  end.

(** --- Listing *)

(** [if client_id: query["client_id"] = client_id] and the like: a filter
    applies only when its argument is truthy. *)
Definition str_filter (f : option string) (v : string) : bool :=
  match f with
  | Some x => if String.eqb x "" then true else String.eqb v x
  | None => true
  end.

(** The query of [list_sales]; a [SaleStatus] member is a non-empty [str],
    so always truthy. *)
Definition list_query (client_id agent_id : option string) (status : option SaleStatus)
    (s : SaleDoc) : bool :=
  str_filter client_id (s_client_id s) && str_filter agent_id (s_agent_id s) &&
  match status with
  | Some st => String.eqb (sale_status_value (s_status s)) (sale_status_value st)
  | None => true
  end.

(** [.sort("created_at", -1)]: created_at descending; documents with equal
    [created_at] are kept in store order. *)
Fixpoint insert_created_desc (s : SaleDoc) (l : list SaleDoc) : list SaleDoc :=
  match l with
  | [] => [s]
  | x :: r => if (s_created_at x <=? s_created_at s)%Z then s :: x :: r
              else x :: insert_created_desc s r
  end.

Fixpoint sort_created_desc (l : list SaleDoc) : list SaleDoc :=
  match l with
  | [] => []
  | x :: r => insert_created_desc x (sort_created_desc r)
  end.

(** [SaleRepository.list_sales]: find, sort, [.skip(skip).limit(limit)],
    [to_list(length=limit)].  Callers pass a positive limit. *)
Definition list_sales (client_id agent_id : option string) (status : option SaleStatus)
    (skip : nat) (limit : positive) : M (list SaleDoc) :=
  try_except
    (store_op "sales.find" ;;
     gets (fun db => firstn (Pos.to_nat limit)
                       (skipn skip (sort_created_desc
                                      (List.filter (list_query client_id agent_id status) (sales db))))))
    (fun e => raise (RepositoryError ("Error listing sales: " ++ exc_str e))).

(** [SalesService.list_recent_sales_for_user]: the client filter only. *)
Definition list_recent_sales_for_user (user_id : string) (limit : positive) : M (list SaleDoc) :=
  list_sales (Some user_id) None None 0 limit.

End Sales.

(* ------------------------------------------------------------------ *)
(** ** MCP gateway (api/v1/endpoints/mcp_gateway.py, agents/agent_protocol.py) *)

Module Gateway.

(** A value of the execution-context dict. *)
Inductive CtxVal : Type :=
| CStr (s : option string)
| CRoles (roles : list string).

(** [MCPRequestContext]; each field is [None] while unset (pydantic's
    [exclude_unset]) and [Some v] when the caller set it. *)
Record MCPRequestContext := {
  c_trace_id : option (option string);
  c_user_id : option (option string);
  c_agent_id : option (option string);
  c_roles : option (list string);
  c_session_id : option (option string) }.

Record MCPRequest := {
  agent_name : string;
  payload_action : string;
  payload_data : list (string * Json);
  context : option MCPRequestContext }.

(** The authenticated principal ([CurrentUser] / [UserPublic]). *)
Record UserPublic := { user_id : string; roles : list string }.

Definition opt_insert (k : string) (v : option CtxVal) (m : gmap string CtxVal) : gmap string CtxVal :=
  match v with Some x => <[k := x]> m | None => m end.

(** [request.context.model_dump(exclude_unset=True)]. *)
Definition model_dump_exclude_unset (c : MCPRequestContext) : gmap string CtxVal :=
  opt_insert "trace_id" (option_map CStr (c_trace_id c))
    (opt_insert "user_id" (option_map CStr (c_user_id c))
      (opt_insert "agent_id" (option_map CStr (c_agent_id c))
        (opt_insert "roles" (option_map CRoles (c_roles c))
          (opt_insert "session_id" (option_map CStr (c_session_id c)) ∅)))).

(** The context of [execute_mcp_action]: the caller's fields, then
    [agent_id], [user_id], [roles] and [trace_id] overwritten. *)
Definition build_exec_context (request : MCPRequest) (currentUser : UserPublic)
    (trace_id : option string) : gmap string CtxVal :=
  let exec_context := match context request with
                      | Some c => model_dump_exclude_unset c
                      | None => ∅
                      end in
  let exec_context := <["agent_id" := CStr (Some (user_id currentUser))]> exec_context in
  let exec_context := <["user_id" := CStr (Some (user_id currentUser))]> exec_context in
  let exec_context := <["roles" := CRoles (roles currentUser)]> exec_context in
  <["trace_id" := CStr trace_id]> exec_context.

(** The caller-supplied [session_id] as [model_dump(exclude_unset=True)]
    sees it: [None] when the request has no context or leaves it unset. *)
Definition caller_session (r : MCPRequest) : option (option string) :=
  match context r with Some c => c_session_id c | None => None end.

(** [execute_mcp_action] over the registry's [execute_agent_action]
    (agent name, payload, context); [trace_id] is [trace_id_var.get()]. *)
Definition execute_mcp_action {R}
    (execute_agent_action : string -> string * list (string * Json) -> gmap string CtxVal -> R)
    (request : MCPRequest) (currentUser : UserPublic) (trace_id : option string) : R :=
  execute_agent_action (agent_name request) (payload_action request, payload_data request)
    (build_exec_context request currentUser trace_id).

End Gateway.

(* ------------------------------------------------------------------ *)
(** ** Audit sanitizer (services/mcp_executor.py, [log_audit_event]) *)

Module Audit.

Definition secret_keys : list string :=
  ["password"; "secret"; "token"; "key"; "authorization"; "senha"].

Definition is_secret_key (k : string) : bool :=
  let k_lower := Py.lower k in
  existsb (fun secret_key => Py.is_substring secret_key k_lower) secret_keys.

Definition max_depth : nat := 5.

(** [sanitize_log_data(data, depth, max_depth=5)]. *)
Fixpoint sanitize_log_data (data : Json) (depth : nat) : Json :=
  if Nat.ltb max_depth depth then JStr "*** DEPTH LIMIT ***" else
  match data with
  | JDict kvs =>
      JDict ((fix go (kvs : list (string * Json)) : list (string * Json) :=
                match kvs with
                | [] => []
                | (k, v) :: rest =>
                    (if is_secret_key k then (k, JStr "*** MASKED ***")
                     else (k, sanitize_log_data v (S depth))) :: go rest
                end) kvs)
  | JList l =>
      JList ((fix go (n : nat) (l : list Json) : list Json :=
                match n, l with
                | O, _ => []
                | _, [] => []
                | S n', x :: rest => sanitize_log_data x (S depth) :: go n' rest
                end) 50 l)
  | JStr s =>
      if Nat.ltb 500 (String.length s)
      then JStr (String.substring 0 500 s ++ "... TRUNCATED")
      else JStr s
  | JNull | JBool _ | JInt _ | JFloat _ => data
  | JOther n => JStr ("<" ++ n ++ ">")
  end.

(** [datetime.now(timezone.utc)] in mcp_executor.py: the module imports
    neither [datetime] nor [timezone], so the name lookup raises
    [NameError]. *)
Definition datetime_now : M Z := raise (NameError "datetime").

(** [log_audit_event(db, tool_name, params, user_info, success, result,
    error, trace_id)]: the parameters (and, on success, the result) are
    sanitized, then the [AuditLogEntry] is built, its arguments evaluated in
    order, and inserted into [audit_log]; an insertion failure is logged and
    swallowed.  [user_info] is the user's id and roles. *)
Definition log_audit_event (tool_name : string) (params : Json)
    (user_info : option (string * list string)) (success : bool) (result : Json)
    (error trace_id : option string) : M unit :=
  let sanitized_params := sanitize_log_data params 0 in
  let sanitized_result := if success then Some (sanitize_log_data result 0) else None in
  let trace := default "no-trace" trace_id in
  let* timestamp := datetime_now in
  let log_entry := {| ma_trace_id := trace; ma_timestamp := timestamp;
                      ma_user_id := match user_info with Some (u, _) => u | None => "anonymous/system" end;
                      ma_user_roles := match user_info with Some (_, r) => r | None => [] end;
                      ma_tool_name := tool_name; ma_parameters := sanitized_params;
                      ma_success := success; ma_result := sanitized_result;
                      ma_error_message := error |} in
  try_except (store_op "audit_log.insert_one" ;; modify (add_mcp_audit log_entry))
             (fun _ => ret tt).

End Audit.

(* ------------------------------------------------------------------ *)
(** ** WebSocket fan-out (websocket/redis_listener.py) *)

Module Listener.

(** A live WebSocket connection of the connection manager. *)
Record Subscriber := {
  sub_conn : nat;
  sub_user_id : string;       (** the connection's Principal.id *)
  sub_groups : list string }.

(** Modelled from the spec: [manager.broadcast] of
    app/websocket/connection_manager.py, which is not in the repository
    sources (§4.9): every live subscriber. *)
Definition broadcast (subs : list Subscriber) : list nat := map sub_conn subs.

(** Modelled from the spec: [manager.broadcast_to_user] of
    app/websocket/connection_manager.py (§4.9): the subscribers whose
    Principal.id equals [target_id]. *)
Definition broadcast_to_user (target_id : Json) (subs : list Subscriber) : list nat :=
  match target_id with
  | JStr u => map sub_conn (List.filter (fun s => String.eqb (sub_user_id s) u) subs)
  | _ => []
  end.

Definition is_str (v : Json) (lit : string) : bool :=
  match v with JStr s => String.eqb s lit | _ => false end.

(** The routing of one decoded [pmessage] payload: the connections the
    message is pushed to, and whether the fallback warning is logged.  A
    payload that is not a dict makes [payload.get] raise; the exception is
    logged and nothing is sent. *)
Definition route (payload : Json) (subs : list Subscriber) : list nat * bool :=
  match payload with
  | JDict kvs =>
      let target := default (JStr "all") (dict_get kvs "__target__") in
      let target_id := default JNull (dict_get kvs "__target_id__") in
      if is_str target "all" then (broadcast subs, false)
      else if is_str target "user" && truthy target_id then (broadcast_to_user target_id subs, false)
      else (broadcast subs, true)
  | _ => ([], false)
  end.

(** Redis glob matching of a channel name against a [psubscribe] pattern,
    for the pattern syntax of the configured channels: [*] matches any
    run of characters, [?] any one character, every other character
    itself.  (Character classes and backslash escapes are not modelled;
    no configured pattern uses them.) *)
Fixpoint glob (p s : list ascii) : bool :=
  match p with
  | [] => match s with [] => true | _ => false end
  | c :: p' =>
      if Ascii.eqb c "*"%char then
        (fix star (s : list ascii) : bool :=
           glob p' s || match s with [] => false | _ :: s' => star s' end) s
      else match s with
           | [] => false
           | c' :: s' => (Ascii.eqb c "?"%char || Ascii.eqb c c') && glob p' s'
           end
  end.

Definition pattern_matches (pattern channel : string) : bool :=
  glob (list_ascii_of_string pattern) (list_ascii_of_string channel).

(** [settings.REDIS_LISTEN_CHANNELS] (core/config.py). *)
Definition REDIS_LISTEN_CHANNELS : list string := ["vox.*"; "user.*"; "task.*"].

(** [settings.REDIS_LISTEN_CHANNELS or ["vox.*"]]. *)
Definition subscribed_patterns (channels : list string) : list string :=
  match channels with [] => ["vox.*"] | _ => channels end.

(** [ws_message] of the listener loop: [type] is [payload.get("event_type",
    channel)], [payload] is [payload.get("data", payload)]. *)
Definition ws_message (channel : string) (kvs : list (string * Json)) : Json :=
  JDict [("type", default (JStr channel) (dict_get kvs "event_type"));
         ("payload", default (JDict kvs) (dict_get kvs "data"))].

(** One [pmessage] of a pattern: a non-dict payload raises in
    [payload.get] and is logged; otherwise [ws_message] is pushed to the
    connections [route] selects. *)
Definition handle_pmessage (channel : string) (payload : Json) (subs : list Subscriber)
    : list (nat * Json) :=
  match payload with
  | JDict kvs => map (fun c => (c, ws_message channel kvs)) (fst (route payload subs))
  | _ => []
  end.

(** What the listener pushes for one message published on [channel]:
    Redis sends one [pmessage] per subscribed pattern the channel matches.
    The published payload is [json.dumps] output, never empty, and
    [json.loads] gives the payload back. *)
Definition listener_deliveries (patterns : list string) (subs : list Subscriber)
    (msg : string * Json) : list (nat * Json) :=
  flat_map (fun p => if pattern_matches p (fst msg) then handle_pmessage (fst msg) (snd msg) subs
                     else []) patterns.

End Listener.

(* ------------------------------------------------------------------ *)
(** ** Agent registry (agents/agent_registry.py, agents/base_agent.py) and
       the gateway's response mapping (api/v1/endpoints/mcp_gateway.py) *)

Module Registry.

(** The exceptions an agent's [execute] raises: [AgentExecutionError]
    (with [str(e)] its message, [details] defaulting to [None] and
    [status_code] to 500), or any other exception, with its [str(e)]. *)
Inductive AgentExc : Type :=
| AgentExecutionError (agent_name message : string) (details : Json) (status_code : Z)
| OtherException (msg : string).

(** A registered agent instance: its [agent_name] and its [execute]
    (payload [{action, data}], context dict). *)
Record Agent := {
  agent_name : string;
  execute : string * list (string * Json) -> gmap string Gateway.CtxVal -> AgentExc + Json }.

(** [AgentRegistry._agents], a Python dict in insertion order. *)
Definition Agents := list (string * Agent).

Definition dict_lookup (k : string) (d : Agents) : option Agent :=
  option_map snd (List.find (fun kv => String.eqb (fst kv) k) d).

(** [d[k] = v]: an existing key keeps its place, a new key goes last. *)
Definition dict_set (k : string) (v : Agent) (d : Agents) : Agents :=
  if existsb (fun kv => String.eqb (fst kv) k) d
  then map (fun kv => if String.eqb (fst kv) k then (k, v) else kv) d
  else (d ++ [(k, v)])%list.

(** [AgentRegistry.register_agent]; [None] stands for a falsy instance. *)
Definition register_agent (agent_instance : option Agent) (agents : Agents) : Agents :=
  match agent_instance with
  | None => agents
  | Some a =>
      if String.eqb (agent_name a) "" || String.eqb (agent_name a) "base_agent" then agents
      else dict_set (agent_name a) a agents
  end.

(** [AgentRegistry.get_registered_agents]. *)
Definition get_registered_agents (agents : Agents) : list string := map fst agents.

Definition exc_str (e : AgentExc) : string :=
  match e with AgentExecutionError _ m _ _ => m | OtherException m => m end.

(** [AgentRegistry.execute_agent_action]. *)
Definition execute_agent_action (agents : Agents) (agent_name : string)
    (payload : string * list (string * Json)) (context : gmap string Gateway.CtxVal)
    : AgentExc + Json :=
  match dict_lookup agent_name agents with
  | None => inl (AgentExecutionError agent_name "Agent not found." JNull 404)
  | Some agent =>
      match execute agent payload context with
      | inr result_payload => inr result_payload
      | inl (AgentExecutionError n m d c) => inl (AgentExecutionError n m d c)
      | inl e => inl (AgentExecutionError agent_name ("Unexpected internal error: " ++ exc_str e)
                        JNull 500)
      end
  end.

(** [MCPResponse] as the gateway fills it on success. *)
Record MCPResponse := {
  r_status : string;
  r_agent : string;
  r_action : string;
  r_result : Json }.

(** The outcome of the [/exec] endpoint: a response, or an [HTTPException]
    with its status code and detail. *)
Inductive EndpointResult : Type :=
| Response (r : MCPResponse)
| HTTPError (status_code : Z) (detail : Json).

(** The body of the [execute_mcp_action] endpoint: the call through the
    singleton registry ([Gateway.execute_mcp_action]), then the mapping of
    its result and of its exceptions. *)
Definition execute_mcp_action_endpoint (agents : Agents) (request : Gateway.MCPRequest)
    (currentUser : Gateway.UserPublic) (trace_id : option string) : EndpointResult :=
  match Gateway.execute_mcp_action (execute_agent_action agents) request currentUser trace_id with
  | inr result_payload =>
      Response {| r_status := "success"; r_agent := Gateway.agent_name request;
                  r_action := Gateway.payload_action request; r_result := result_payload |}
  | inl (AgentExecutionError _ m d c) => HTTPError c (JDict [("message", JStr m); ("details", d)])
  | inl (OtherException _) => HTTPError 500 (JStr "Internal Server Error processing MCP request.")
  end.

End Registry.

(* ------------------------------------------------------------------ *)
(** ** Concrete stores used by the examples below *)

Module Fixtures.

Definition client_id : string := Py.oid_of_nat 900.
Definition delivery_id : string := Py.oid_of_nat 7.

Definition delivery0 : DeliverySessionDoc :=
  {| d_id := delivery_id; d_sale_id := Py.oid_of_nat 1; d_client_profile_id := client_id;
     d_courier_profile_id := Some "courier-1"; d_current_status := PENDING_ASSIGNMENT;
     d_tracking_history := []; d_current_location := None; d_expire_at := None;
     d_updated_at := 0 |}.

Definition sku1 : ProductDoc :=
  {| p_id := "p1"; p_sku := "SKU-1"; p_name := "Product 1"; p_available_stock := 10;
     p_standard_selling_price := 5 # 2; p_version := 0 |}.
Definition sku2 : ProductDoc :=
  {| p_id := "p2"; p_sku := "SKU-2"; p_name := "Product 2"; p_available_stock := 1;
     p_standard_selling_price := 1 # 8; p_version := 0 |}.

(** Two products, an active client, a pending delivery, all services up. *)
Definition db0 : DB :=
  {| deliveries := <[delivery_id := delivery0]> ∅;
     sales := [];
     products := <["SKU-1" := sku1]> (<["SKU-2" := sku2]> ∅);
     profiles := <[client_id := {| pr_id := client_id; pr_is_active := true |}]> ∅;
     audit_logs := []; published := []; queries := []; faults := [];
     redis_up := true; next_oid := 0; txn := None; mcp_audit_log := []; tasks := [] |}.

Definition item (sku : string) (q : Z) : Sales.CreateSaleItemInput :=
  {| Sales.ci_sku := sku; Sales.ci_quantity := q |}.

Definition sale_input (items : list Sales.CreateSaleItemInput) : Sales.CreateSaleInput :=
  {| Sales.si_client_id := client_id; Sales.si_agent_id := "U1";
     Sales.si_items := items; Sales.si_currency := "USD" |}.


(** A stored sale of two units of SKU-1 by agent U1 to the client, at
    time 100, and [db0] holding it. *)
Definition sale1 : SaleDoc :=
  {| s_id := Py.oid_of_nat 0; s_client_id := client_id; s_agent_id := "U1";
     s_items := [{| it_product_id := "p1"; it_sku := "SKU-1"; it_name := "Product 1";
                    it_quantity := 2; it_unit_price := 5 # 2; it_total_price := 5 # 1 |}];
     s_total_amount := 5 # 1; s_currency := "USD"; s_status := PROCESSING;
     s_created_at := 100 |}.

Definition db1 : DB := bump_oid (set_sales (fun _ => [sale1]) db0).

(** An authenticated principal, and two MCP requests that differ only in
    the caller-supplied [agent_id], [user_id] and [roles]. *)
Definition principal : Gateway.UserPublic := {| Gateway.user_id := "U1"; Gateway.roles := ["agent"] |}.

Definition spoofing_request : Gateway.MCPRequest :=
  {| Gateway.agent_name := "sales_agent"; Gateway.payload_action := "create_sale";
     Gateway.payload_data := [("client_id", JStr client_id)];
     Gateway.context := Some {| Gateway.c_trace_id := Some (Some "T-spoof");
                                Gateway.c_user_id := Some (Some "admin");
                                Gateway.c_agent_id := Some (Some "admin");
                                Gateway.c_roles := Some ["admin"];
                                Gateway.c_session_id := Some (Some "S1") |} |}.

Definition plain_request : Gateway.MCPRequest :=
  {| Gateway.agent_name := "sales_agent"; Gateway.payload_action := "create_sale";
     Gateway.payload_data := [("client_id", JStr client_id)];
     Gateway.context := Some {| Gateway.c_trace_id := None; Gateway.c_user_id := None;
                                Gateway.c_agent_id := None; Gateway.c_roles := None;
                                Gateway.c_session_id := Some (Some "S1") |} |}.

(** The delivery of [db0] once it is in transit, and the store holding it. *)
Definition delivery_in_transit : DeliverySessionDoc :=
  {| d_id := delivery_id; d_sale_id := Py.oid_of_nat 1; d_client_profile_id := client_id;
     d_courier_profile_id := Some "courier-1"; d_current_status := IN_TRANSIT;
     d_tracking_history := []; d_current_location := None; d_expire_at := None;
     d_updated_at := 0 |}.

Definition db_in_transit : DB := set_deliveries (insert delivery_id delivery_in_transit) db0.

Definition location0 : LocationPoint := {| lp_coordinates := (1 # 1, 2 # 1) |}.

(** Two connections of user U1 and one of U2. *)
Definition subscribers : list Listener.Subscriber :=
  [{| Listener.sub_conn := 1; Listener.sub_user_id := "U1"; Listener.sub_groups := [] |};
   {| Listener.sub_conn := 2; Listener.sub_user_id := "U2"; Listener.sub_groups := [] |};
   {| Listener.sub_conn := 3; Listener.sub_user_id := "U1"; Listener.sub_groups := [] |}].

(** An agent named ["sales_agent"] that returns its action. *)
Definition echo_agent : Registry.Agent :=
  {| Registry.agent_name := "sales_agent";
     Registry.execute := fun payload _ => inr (JStr (fst payload)) |}.

End Fixtures.

(* ------------------------------------------------------------------ *)
(** ** Notions used by the statements below *)

(** The delivery [d] after [update_courier_location]'s [$set]: the new
    location, and [updated_at] as the repository stamps it. *)
Definition with_location (d : DeliverySessionDoc) (l : LocationPoint) (t : Z) : DeliverySessionDoc :=
  {| d_id := d_id d; d_sale_id := d_sale_id d; d_client_profile_id := d_client_profile_id d;
     d_courier_profile_id := d_courier_profile_id d; d_current_status := d_current_status d;
     d_tracking_history := d_tracking_history d; d_current_location := Some l;
     d_expire_at := d_expire_at d; d_updated_at := t |}.

(** The message [update_courier_location] publishes for the client:
    the channel and the envelope of [publish_websocket_update]. *)
Definition location_update_message (client_id delivery_id : string) (l : LocationPoint)
    (ts : string) : string * Json :=
  (BACKEND_PUBLISH_EVENT_CHANNEL,
   JDict [("__target__", JStr "user"); ("__target_id__", JStr client_id);
          ("event_type", JStr "delivery_location_update");
          ("data", JDict [("delivery_id", JStr delivery_id);
                          ("location", Delivery.location_json (Some l)); ("timestamp", JStr ts)])]).

(** The order of [.sort("created_at", -1)], as a relation. *)
Definition created_desc (a b : SaleDoc) : Prop := (s_created_at b <= s_created_at a)%Z.

(** The nesting depth of a JSON value: scalars 0, a list or dict one more
    than its deepest element. *)
Fixpoint json_depth (j : Json) : nat :=
  match j with
  | JList l => S ((fix go (l : list Json) : nat :=
                     match l with [] => 0 | x :: r => Nat.max (json_depth x) (go r) end) l)
  | JDict kvs => S ((fix go (kvs : list (string * Json)) : nat :=
                       match kvs with [] => 0 | kv :: r => Nat.max (json_depth (snd kv)) (go r) end) kvs)
  | _ => 0
  end.

(** A value built from the JSON types only (no other Python object). *)
Fixpoint no_other (j : Json) : bool :=
  match j with
  | JList l => forallb no_other l
  | JDict kvs => forallb (fun kv => no_other (snd kv)) kvs
  | JOther _ => false
  | _ => true
  end.

(** Every string of the value has at most [max_str] characters and every
    list at most [max_list] elements. *)
Fixpoint json_bounded (max_str max_list : nat) (j : Json) : bool :=
  match j with
  | JStr s => Nat.leb (String.length s) max_str
  | JList l => Nat.leb (length l) max_list && forallb (json_bounded max_str max_list) l
  | JDict kvs => forallb (fun kv => json_bounded max_str max_list (snd kv)) kvs
  | JOther _ => false
  | _ => true
  end.

(** What [sanitize_log_data] makes of one dict entry at depth [d]. *)
Definition sanitize_kv (d : nat) (kv : string * Json) : string * Json :=
  if Audit.is_secret_key (fst kv) then (fst kv, JStr "*** MASKED ***")
  else (fst kv, Audit.sanitize_log_data (snd kv) (S d)).


(** The shape of [AgentRegistry._agents]: distinct names, none empty or
    ["base_agent"], each agent stored under its own [agent_name]. *)
Definition registry_wf (agents : Registry.Agents) : Prop :=
  NoDup (Registry.get_registered_agents agents) /\
  ~ In "" (Registry.get_registered_agents agents) /\
  ~ In "base_agent" (Registry.get_registered_agents agents) /\
  Forall (fun kv => Registry.agent_name (snd kv) = fst kv) agents.

(** One entry under [d[k] = v] when [k] is already a key. *)
Definition replace_entry (k : string) (v : Registry.Agent) (kv : string * Registry.Agent) :=
  if String.eqb (fst kv) k then (k, v) else kv.

(** An instance [register_agent] accepts: its name is neither empty nor
    ["base_agent"]. *)
Definition valid_agent (a : Registry.Agent) : bool :=
  negb (String.eqb (Registry.agent_name a) "" || String.eqb (Registry.agent_name a) "base_agent").

(* ------------------------------------------------------------------ *)
(** * Properties *)





Lemma bind_inl {A B} (m : M A) (k : A -> M B) db e db1 :
  m db = (inl e, db1) -> bind m k db = (inl e, db1).
Proof. intros H. unfold bind. now rewrite H. Qed.




Lemma publish_websocket_update_ok target target_id event_type data db :
  exists db', publish_websocket_update target target_id event_type data db = (inr tt, db')
    /\ deliveries db' = deliveries db /\ sales db' = sales db /\ products db' = products db.
Proof.
  unfold publish_websocket_update, publish, bind, ret.
  destruct (redis_up db); eexists; repeat split.
Qed.






Lemma raise_not_inr {A} (e : Exc) db (b : A) db' : raise e db = (inr b, db') -> False.
Proof. unfold raise. intros [=]. Qed.

(** The store after [PeopleService.get_profile_by_id]: at most the
    [find_one] is logged; and its only exception is an [HTTPException]. *)
Lemma get_profile_by_id_frame pid db r db' :
  Sales.get_profile_by_id pid db = (r, db') ->
  (db' = db \/ db' = add_query "profiles.find_one" db) /\
  ((exists pr, r = inr pr) \/ (exists c m, r = inl (HTTPException c m))).
Proof.
  unfold Sales.get_profile_by_id, Sales.repo_get_profile_by_id,
    try_except, bind, store_op, gets, ret, raise.
  destruct (negb _).
  - intros [= <- <-]. split; [left; reflexivity|]. right. eauto.
  - destruct (existsb _ _).
    + intros [= <- <-]. split; [right; reflexivity|]. right. eauto.
    + destruct (profiles (add_query "profiles.find_one" db) !! pid);
        intros [= <- <-]; (split; [right; reflexivity|]); eauto.
Qed.

(** [_check_duplicate_sale] raises on its first line, whatever the store. *)
Lemma check_duplicate_sale_attribute_error now agent_id client_id items db :
  Sales.check_duplicate_sale now agent_id client_id items db =
  (inl (AttributeError "Settings" "DUPLICATE_SALE_WINDOW_MINUTES"), db).
Proof. reflexivity. Qed.

(** Every [create_sale] call raises: the profile lookup's [HTTPException],
    [ClientNotFoundError] for an inactive client, or the [AttributeError] of
    the duplicate check; at most the profile query is logged. *)
Lemma create_sale_fails now sale_input db :
  exists e db', Sales.create_sale now sale_input db = (inl e, db') /\
    (db' = db \/ db' = add_query "profiles.find_one" db) /\
    ((exists c m, e = HTTPException c m) \/ e = ClientNotFoundError (Sales.si_client_id sale_input) \/
     e = AttributeError "Settings" "DUPLICATE_SALE_WINDOW_MINUTES").
Proof.
  unfold Sales.create_sale, bind at 1.
  destruct (Sales.get_profile_by_id (Sales.si_client_id sale_input) db) as [r db1] eqn:E.
  apply get_profile_by_id_frame in E as [Hdb [[pr ->]|(c & m & ->)]].
  - destruct (negb (pr_is_active pr)).
    + exists (ClientNotFoundError (Sales.si_client_id sale_input)), db1. auto.
    + exists (AttributeError "Settings" "DUPLICATE_SALE_WINDOW_MINUTES"), db1.
      split; [|auto]. apply bind_inl, check_duplicate_sale_attribute_error.
  - exists (HTTPException c m), db1. split; [reflexivity|]. split; [exact Hdb|]. left. eauto.
Qed.


(** C5 (code bug): the duplicate check raises [AttributeError] on
    [settings.DUPLICATE_SALE_WINDOW_MINUTES] on every call, before any query
    or signature comparison; so [create_sale] never raises
    [DuplicateSaleError], also when a stored recent sale of the same agent
    and client has the request's signature, as in [db1]. *)
Theorem duplicate_check_raises_attribute_error :
  (forall now agent_id client_id items db,
     Sales.check_duplicate_sale now agent_id client_id items db =
       (inl (AttributeError "Settings" "DUPLICATE_SALE_WINDOW_MINUTES"), db)) /\
  (forall now sale_input db c a,
     fst (Sales.create_sale now sale_input db) <> inl (DuplicateSaleError c a)) /\
  fst (Sales.create_sale 200 (Fixtures.sale_input [Fixtures.item "SKU-1" 2]) Fixtures.db1) =
    inl (AttributeError "Settings" "DUPLICATE_SALE_WINDOW_MINUTES").
Proof.
  split; [|split].
  - exact check_duplicate_sale_attribute_error.
  - intros now sale_input db c a.
    destruct (create_sale_fails now sale_input db) as (e & db' & E & _ & He).
    rewrite E. cbn [fst]. intros [= ->].
    destruct He as [(c' & m & He)|[He|He]]; discriminate He.
  - vm_compute. reflexivity.
Qed.

(** C6 (confirmed): neither audit sink writes a record.
    [AuditService.log_event] raises at [if not collection] before it builds
    or inserts the entry, and the MCP executor's [log_audit_event] raises
    [NameError] at [datetime.now] after sanitizing and before the insert;
    both leave the store unchanged, so no audit record, sanitized or not,
    is ever written. *)
Theorem audit_sinks_write_no_record :
  (forall now actor_id action entity_type entity_id success details trace_id db,
     log_event now actor_id action entity_type entity_id success details trace_id db =
       (inl collection_bool_error, db)) /\
  (forall tool_name params user_info success result error trace_id db,
     Audit.log_audit_event tool_name params user_info success result error trace_id db =
       (inl (NameError "datetime"), db)).
Proof. split; reflexivity. Qed.



Lemma opt_insert_ne k k' v m : k <> k' -> Gateway.opt_insert k v m !! k' = m !! k'.
Proof. intros H. destruct v; simpl; [apply lookup_insert_ne; exact H|reflexivity]. Qed.

Lemma build_exec_context_other r u t k :
  k <> "agent_id" -> k <> "user_id" -> k <> "roles" -> k <> "trace_id" ->
  Gateway.build_exec_context r u t !! k =
  if String.eqb k "session_id" then option_map Gateway.CStr (Gateway.caller_session r) else None.
Proof.
  intros H1 H2 H3 H4. unfold Gateway.build_exec_context.
  rewrite !lookup_insert_ne by congruence.
  unfold Gateway.caller_session. destruct (Gateway.context r) as [c|]; simpl.
  - unfold Gateway.model_dump_exclude_unset.
    rewrite !opt_insert_ne by congruence.
    destruct (String.eqb_spec k "session_id") as [->|Hk].
    + destruct (Gateway.c_session_id c); simpl; [apply lookup_insert_eq|reflexivity].
    + rewrite opt_insert_ne by congruence. reflexivity.
  - destruct (String.eqb k "session_id"); reflexivity.
Qed.

(** C4 (confirmed): the context handed to the agent has [agent_id],
    [user_id], [roles] and [trace_id] from the principal and the request's
    trace id, whatever the caller sent; two requests for the same agent and
    payload whose contexts agree on [session_id] (and so may differ in
    every caller-supplied [agent_id], [user_id], [roles] or [trace_id])
    are executed on the same context. *)
Theorem exec_context_fields_from_principal :
  (forall request currentUser trace_id,
     let ctx := Gateway.build_exec_context request currentUser trace_id in
     ctx !! "agent_id" = Some (Gateway.CStr (Some (Gateway.user_id currentUser))) /\
     ctx !! "user_id" = Some (Gateway.CStr (Some (Gateway.user_id currentUser))) /\
     ctx !! "roles" = Some (Gateway.CRoles (Gateway.roles currentUser)) /\
     ctx !! "trace_id" = Some (Gateway.CStr trace_id)) /\
  (forall (R : Type) execute_agent_action request1 request2 currentUser trace_id,
     Gateway.agent_name request1 = Gateway.agent_name request2 ->
     Gateway.payload_action request1 = Gateway.payload_action request2 ->
     Gateway.payload_data request1 = Gateway.payload_data request2 ->
     Gateway.caller_session request1 = Gateway.caller_session request2 ->
     Gateway.execute_mcp_action (R := R) execute_agent_action request1 currentUser trace_id =
     Gateway.execute_mcp_action execute_agent_action request2 currentUser trace_id).
Proof.
  split.
  - intros request currentUser trace_id ctx. subst ctx. unfold Gateway.build_exec_context.
    repeat split.
    + rewrite !lookup_insert_ne by congruence. apply lookup_insert_eq.
    + rewrite !lookup_insert_ne by congruence. apply lookup_insert_eq.
    + rewrite lookup_insert_ne by congruence. apply lookup_insert_eq.
    + apply lookup_insert_eq.
  - intros R f r1 r2 u t Ha Hp Hd Hs. unfold Gateway.execute_mcp_action.
    rewrite Ha, Hp, Hd. f_equal.
    apply map_eq. intros k.
    destruct (decide (k = "agent_id")) as [->|H1];
    [unfold Gateway.build_exec_context; rewrite !(lookup_insert_ne _ "trace_id"), !(lookup_insert_ne _ "roles"), !(lookup_insert_ne _ "user_id"), !lookup_insert_eq by congruence; reflexivity|].
    destruct (decide (k = "user_id")) as [->|H2];
    [unfold Gateway.build_exec_context; rewrite !(lookup_insert_ne _ "trace_id"), !(lookup_insert_ne _ "roles"), !lookup_insert_eq by congruence; reflexivity|].
    destruct (decide (k = "roles")) as [->|H3];
    [unfold Gateway.build_exec_context; rewrite !(lookup_insert_ne _ "trace_id"), !lookup_insert_eq by congruence; reflexivity|].
    destruct (decide (k = "trace_id")) as [->|H4];
    [unfold Gateway.build_exec_context; rewrite !lookup_insert_eq; reflexivity|].
    rewrite !build_exec_context_other by assumption. rewrite Hs. reflexivity.
Qed.

(** C10 (confirmed): for an id that is not a valid ObjectId,
    [get_sale_by_id] raises 404 "Sale not found." and the delivery
    repository returns [None], both without querying the store (the state
    is unchanged, no query is logged). *)
Theorem malformed_ids_not_found :
  forall id db, Py.objectid_is_valid id = false ->
    Sales.get_sale_by_id id db = (inl (HTTPException 404 "Sale not found."), db) /\
    Delivery.get_delivery_by_id id db = (inr None, db).
Proof.
  intros id db H. unfold Sales.get_sale_by_id, Sales.repo_get_sale_by_id,
    Delivery.get_delivery_by_id. rewrite H. split; reflexivity.
Qed.

(** C8 (corrected, spec-modelled connection manager): the listener sends
    target ["all"] to every subscriber, target ["user"] with a non-empty
    string id to the subscribers of that user, and every other target,
    ["group"] included, to every subscriber with the fallback warning. *)
Theorem route_group_falls_back_to_all :
  (forall kvs subs,
     dict_get kvs "__target__" = Some (JStr "all") ->
     Listener.route (JDict kvs) subs = (map Listener.sub_conn subs, false)) /\
  (forall kvs subs u,
     dict_get kvs "__target__" = Some (JStr "user") ->
     dict_get kvs "__target_id__" = Some (JStr u) -> u <> "" ->
     Listener.route (JDict kvs) subs =
       (map Listener.sub_conn (List.filter (fun s => String.eqb (Listener.sub_user_id s) u) subs), false)) /\
  (forall kvs subs t,
     dict_get kvs "__target__" = Some (JStr t) -> t <> "all" -> t <> "user" ->
     Listener.route (JDict kvs) subs = (map Listener.sub_conn subs, true)).
Proof.
  split; [|split].
  - intros kvs subs H. unfold Listener.route. rewrite H. reflexivity.
  - intros kvs subs u H1 H2 H3. unfold Listener.route. rewrite H1, H2. simpl.
    destruct u as [|c u]; [congruence|reflexivity].
  - intros kvs subs t H H1 H2. unfold Listener.route. rewrite H. simpl.
    unfold Listener.is_str.
    apply String.eqb_neq in H1, H2. rewrite H1, H2. reflexivity.
Qed.

(** C8 counterexample: a ["group"] message for ["sales_dashboard"] also
    reaches a subscriber who never joined that group. *)
Lemma group_target_reaches_non_member :
  let member := {| Listener.sub_conn := 1; Listener.sub_user_id := "U1"; Listener.sub_groups := ["sales_dashboard"] |} in
  let outsider := {| Listener.sub_conn := 2; Listener.sub_user_id := "U2"; Listener.sub_groups := [] |} in
  Listener.route (JDict [("__target__", JStr "group"); ("__target_id__", JStr "sales_dashboard");
                         ("event_type", JStr "sale_created"); ("data", JDict [])]) [member; outsider]
  = ([1; 2], true).
Proof. reflexivity. Qed.


(** Witnesses: each theorem with hypotheses, applied at a concrete input. *)

(** C4 witness: a request that sets [agent_id], [user_id], [roles] and
    [trace_id] to ["admin"] values gets the context of one that sets none. *)
Lemma exec_context_fields_from_principal_witness :
  Gateway.caller_session Fixtures.spoofing_request = Gateway.caller_session Fixtures.plain_request /\
  Gateway.execute_mcp_action (fun _ _ ctx => ctx) Fixtures.spoofing_request Fixtures.principal (Some "T1") =
  Gateway.execute_mcp_action (fun _ _ ctx => ctx) Fixtures.plain_request Fixtures.principal (Some "T1") /\
  Gateway.build_exec_context Fixtures.spoofing_request Fixtures.principal (Some "T1") !! "agent_id" =
    Some (Gateway.CStr (Some "U1")).
Proof.
  split; [reflexivity|]. split.
  - exact (proj2 exec_context_fields_from_principal _ (fun _ _ ctx => ctx)
             Fixtures.spoofing_request Fixtures.plain_request Fixtures.principal (Some "T1")
             eq_refl eq_refl eq_refl eq_refl).
  - exact (proj1 (proj1 exec_context_fields_from_principal
                    Fixtures.spoofing_request Fixtures.principal (Some "T1"))).
Defined.

(** C8 witness: one message of each kind of target, to a group member
    ["U1"] and an outsider ["U2"]. *)
Lemma route_group_falls_back_to_all_witness :
  let subs := [{| Listener.sub_conn := 1; Listener.sub_user_id := "U1"; Listener.sub_groups := ["sales_dashboard"] |};
               {| Listener.sub_conn := 2; Listener.sub_user_id := "U2"; Listener.sub_groups := [] |}] in
  Listener.route (JDict [("__target__", JStr "all")]) subs = ([1; 2], false) /\
  Listener.route (JDict [("__target__", JStr "user"); ("__target_id__", JStr "U2")]) subs = ([2], false) /\
  Listener.route (JDict [("__target__", JStr "group"); ("__target_id__", JStr "sales_dashboard")]) subs
    = ([1; 2], true).
Proof.
  intros subs. split; [|split].
  - exact (proj1 route_group_falls_back_to_all [("__target__", JStr "all")] subs eq_refl).
  - exact (proj1 (proj2 route_group_falls_back_to_all)
             [("__target__", JStr "user"); ("__target_id__", JStr "U2")] subs "U2"
             eq_refl eq_refl ltac:(discriminate)).
  - exact (proj2 (proj2 route_group_falls_back_to_all)
             [("__target__", JStr "group"); ("__target_id__", JStr "sales_dashboard")] subs "group"
             eq_refl ltac:(discriminate) ltac:(discriminate)).
Defined.

(** C10 witness: the id ["abc"] on [db0]. *)
Lemma malformed_ids_not_found_witness :
  Py.objectid_is_valid "abc" = false /\
  Sales.get_sale_by_id "abc" Fixtures.db0 = (inl (HTTPException 404 "Sale not found."), Fixtures.db0) /\
  Delivery.get_delivery_by_id "abc" Fixtures.db0 = (inr None, Fixtures.db0).
Proof.
  split; [reflexivity|].
  exact (malformed_ids_not_found "abc" Fixtures.db0 eq_refl).
Defined.

(* ------------------------------------------------------------------ *)
(** ** Further properties of the repositories, services, listener and registry *)

Lemma status_eqb_in s : existsb (delivery_status_eqb s) Delivery.location_update_statuses = true <-> In s Delivery.location_update_statuses.
Proof. destruct s; simpl; intuition (try discriminate; try congruence). Qed.

Lemma get_delivery_by_id_frame id db r db' :
  Delivery.get_delivery_by_id id db = (r, db') -> deliveries db' = deliveries db /\ published db' = published db /\ redis_up db' = redis_up db.
Proof.
  unfold Delivery.get_delivery_by_id, try_except, bind, store_op, gets, ret, raise.
  intros Hm. repeat case_match; simplify_eq; simpl; auto.
Qed.

Lemma get_delivery_by_id_found_valid id db d :
  Py.objectid_is_valid id = true -> existsb (String.eqb "deliveries.find_one") (faults db) = false ->
  deliveries db !! id = Some d ->
  Delivery.get_delivery_by_id id db = (inr (Some d), add_query "deliveries.find_one" db).
Proof.
  intros Hv Hf Hd. unfold Delivery.get_delivery_by_id. rewrite Hv. simpl.
  unfold try_except, bind, store_op, gets. rewrite Hf. simpl. now rewrite Hd.
Qed.

(** X1: for a well-formed id of an existing delivery whose courier is not [courier_id], [update_courier_location] raises the 403 "Courier not assigned to this delivery." and writes and publishes nothing. *)
Theorem update_courier_location_unassigned_forbidden now isoformat delivery_id courier_id loc ts db d :
  Py.objectid_is_valid delivery_id = true ->
  existsb (String.eqb "deliveries.find_one") (faults db) = false ->
  deliveries db !! delivery_id = Some d ->
  Delivery.courier_assigned d courier_id = false ->
  exists db', Delivery.update_courier_location now isoformat delivery_id courier_id loc ts db =
              (inl (HTTPException 403 "Courier not assigned to this delivery."), db') /\
              deliveries db' = deliveries db /\ published db' = published db.
Proof.
  intros Hv Hf Hd Hc. unfold Delivery.update_courier_location, bind at 1.
  rewrite (get_delivery_by_id_found_valid _ _ _ Hv Hf Hd), Hc. simpl.
  eexists; split; [reflexivity | split; reflexivity].
Qed.

(** X2: for a well-formed id of an existing delivery assigned to [courier_id] whose status is not picking_up, in_transit, near_destination or failed_attempt, [update_courier_location] raises [InvalidDeliveryStatusError] for "update location" and writes and publishes nothing. *)
Theorem update_courier_location_status_gate now isoformat delivery_id courier_id loc ts db d :
  Py.objectid_is_valid delivery_id = true ->
  existsb (String.eqb "deliveries.find_one") (faults db) = false ->
  deliveries db !! delivery_id = Some d ->
  Delivery.courier_assigned d courier_id = true ->
  ~ In (d_current_status d) Delivery.location_update_statuses ->
  exists db', Delivery.update_courier_location now isoformat delivery_id courier_id loc ts db =
              (inl (InvalidDeliveryStatusError delivery_id (delivery_status_value (d_current_status d))
                      "update location"), db') /\
              deliveries db' = deliveries db /\ published db' = published db.
Proof.
  intros Hv Hf Hd Hc Hs. unfold Delivery.update_courier_location, bind at 1.
  rewrite (get_delivery_by_id_found_valid _ _ _ Hv Hf Hd), Hc.
  destruct (existsb (delivery_status_eqb (d_current_status d)) Delivery.location_update_statuses) eqn:E.
  - apply status_eqb_in in E. contradiction.
  - simpl. eexists; split; [reflexivity | split; reflexivity].
Qed.

(** X3: whenever [update_courier_location] raises, the deliveries are unchanged and nothing is published. *)
Theorem update_courier_location_failure_writes_nothing now isoformat delivery_id courier_id loc ts db e db' :
  Delivery.update_courier_location now isoformat delivery_id courier_id loc ts db = (inl e, db') ->
  deliveries db' = deliveries db /\ published db' = published db.
Proof.
  unfold Delivery.update_courier_location, bind at 1.
  destruct (Delivery.get_delivery_by_id delivery_id db) as [r1 db1] eqn:G.
  apply get_delivery_by_id_frame in G as (G1 & G2 & _).
  rewrite <- G1, <- G2.
  destruct r1 as [e1 | [d|]]; [intros H; inversion H; subst; auto| |intros H; inversion H; subst; auto].
  destruct (Delivery.courier_assigned d courier_id); cbn [negb]; [|intros H; inversion H; subst; auto].
  destruct (existsb _ _); cbn [negb]; [|intros H; inversion H; subst; auto].
  unfold Delivery.update_delivery, try_except, bind, store_op, publish_websocket_update,
    publish, bind, raise, ret, gets.
  intros Hm. repeat (case_match; cbv beta in *); simplify_eq; simpl; auto.
Qed.

(** X4: a successful [update_courier_location] found the delivery, with [courier_id] assigned and a location-update status; it stores the delivery with the new location and [updated_at] set to the repository's clock, returns it, and publishes one [delivery_location_update] for the client when Redis is up. *)
Theorem update_courier_location_success now isoformat delivery_id courier_id loc ts db upd db' :
  Delivery.update_courier_location now isoformat delivery_id courier_id loc ts db = (inr upd, db') ->
  exists d, deliveries db !! delivery_id = Some d /\
    Delivery.courier_assigned d courier_id = true /\
    In (d_current_status d) Delivery.location_update_statuses /\
    upd = with_location d loc now /\
    deliveries db' = <[delivery_id := upd]> (deliveries db) /\
    published db' = ((if redis_up db
                      then [location_update_message (d_client_profile_id d) delivery_id loc (isoformat ts)]
                      else []) ++ published db)%list.
Proof.
  unfold Delivery.update_courier_location, bind at 1.
  destruct (Delivery.get_delivery_by_id delivery_id db) as [r1 db1] eqn:G.
  destruct r1 as [e1 | [d|]]; [intros H; inversion H| |intros H; inversion H].
  assert (Hv : Py.objectid_is_valid delivery_id = true /\ deliveries db !! delivery_id = Some d).
  { revert G. unfold Delivery.get_delivery_by_id, try_except, bind, store_op, gets, ret, raise.
    destruct (Py.objectid_is_valid delivery_id); simpl; [|intros H; inversion H].
    intros Hm. repeat case_match; simplify_eq; auto. }
  destruct Hv as [Hv Hd].
  apply get_delivery_by_id_frame in G as (G1 & G2 & G3).
  destruct (Delivery.courier_assigned d courier_id) eqn:C; cbn [negb]; [|intros H; inversion H].
  destruct (existsb _ _) eqn:S; cbn [negb]; [|intros H; inversion H].
  unfold Delivery.update_delivery, try_except, bind, store_op, publish_websocket_update,
    publish, bind, raise, ret, gets.
  rewrite Hv. cbn [negb].
  apply status_eqb_in in S.
  intros Hm. repeat (case_match; cbv beta in *); simplify_eq.
  all: match goal with
       | Hl : deliveries (add_query ?q ?x) !! _ = Some _ |- _ =>
           change (deliveries (add_query q x)) with (deliveries x) in Hl;
           rewrite G1, Hd in Hl; injection Hl as <-
       end.
  all: exists d; split; [exact Hd|]; split; [exact C|]; split; [exact S|]; split; [reflexivity|].
  all: unfold add_published, set_deliveries, add_query; cbn [deliveries published];
       rewrite ?G1, ?G2; split; try reflexivity.
  all: exfalso; cbn [redis_up set_deliveries add_query] in *; congruence.
Qed.

(** X5: a non-empty [update_delivery] that returns a delivery stores it under its id with [updated_at] equal to the repository's [now], whatever [updated_at] the caller passed. *)
Theorem update_delivery_stamps_repository_clock now delivery_id update_data db d db' :
  update_data <> [] ->
  Delivery.update_delivery now delivery_id update_data db = (inr (Some d), db') ->
  d_updated_at d = now /\ deliveries db' !! delivery_id = Some d.
Proof.
  intros Hne. unfold Delivery.update_delivery.
  destruct (Py.objectid_is_valid delivery_id); simpl; [|unfold ret; intros H; inversion H].
  destruct update_data as [|u rest]; [contradiction|].
  unfold try_except, bind, store_op, raise.
  destruct (existsb (String.eqb "deliveries.find_one_and_update") (faults db)); simpl; [intros H; inversion H|].
  intros Hm. repeat case_match; simplify_eq.
  split.
  - rewrite fold_left_app. reflexivity.
  - cbn [deliveries set_deliveries]. apply lookup_insert_eq.
Qed.

Lemma insert_created_desc_perm s l : Permutation (Sales.insert_created_desc s l) (s :: l).
Proof.
  induction l as [|x r IH]; simpl; [reflexivity|].
  destruct (s_created_at x <=? s_created_at s)%Z; [reflexivity|].
  rewrite IH. apply perm_swap.
Qed.

Lemma sort_created_desc_perm l : Permutation (Sales.sort_created_desc l) l.
Proof.
  induction l as [|x r IH]; simpl; [reflexivity|].
  rewrite insert_created_desc_perm. now constructor.
Qed.

Lemma insert_created_desc_sorted s l :
  Sorted created_desc l -> Sorted created_desc (Sales.insert_created_desc s l).
Proof.
  induction 1 as [|x r Hs IH Hhd]; simpl; [repeat constructor|].
  destruct (s_created_at x <=? s_created_at s)%Z eqn:E.
  - constructor; [constructor; auto|]. constructor. unfold created_desc. lia.
  - constructor; [exact IH|].
    destruct r as [|y r']; simpl.
    + constructor. unfold created_desc. lia.
    + inversion Hhd; subst. destruct (s_created_at y <=? s_created_at s)%Z; constructor; unfold created_desc in *; lia.
Qed.

Lemma sort_created_desc_sorted l : Sorted created_desc (Sales.sort_created_desc l).
Proof. induction l; simpl; [constructor|]. now apply insert_created_desc_sorted. Qed.

Lemma sorted_skipn {A} (R : A -> A -> Prop) n l : Sorted R l -> Sorted R (skipn n l).
Proof.
  revert l; induction n as [|n IH]; intros l H; [exact H|].
  destruct l as [|x r]; simpl; [constructor|]. apply IH. now inversion H.
Qed.

Lemma sorted_firstn {A} (R : A -> A -> Prop) n l : Sorted R l -> Sorted R (firstn n l).
Proof.
  revert l; induction n as [|n IH]; intros l H; simpl; [constructor|].
  destruct l as [|x r]; [constructor|]. inversion H; subst. constructor; [now apply IH|].
  destruct r as [|y r']; destruct n; simpl; constructor.
  match goal with Hh : HdRel _ _ (_ :: _) |- _ => now inversion Hh end.
Qed.

Lemma in_firstn_skipn {A} (x : A) k n l : In x (firstn k (skipn n l)) -> In x l.
Proof.
  intros H.
  assert (In x (skipn n l)) by (rewrite <- (firstn_skipn k (skipn n l)); apply in_or_app; now left).
  rewrite <- (firstn_skipn n l). apply in_or_app; now right.
Qed.

Lemma list_sales_ok client agent status skip limit db :
  existsb (String.eqb "sales.find") (faults db) = false ->
  Sales.list_sales client agent status skip limit db =
  (inr (firstn (Pos.to_nat limit) (skipn skip (Sales.sort_created_desc
          (List.filter (Sales.list_query client agent status) (sales db))))), add_query "sales.find" db).
Proof. intros Hf. unfold Sales.list_sales, try_except, bind, store_op, gets. now rewrite Hf. Qed.

Lemma list_sales_inv client agent status skip limit db l db' :
  Sales.list_sales client agent status skip limit db = (inr l, db') ->
  l = firstn (Pos.to_nat limit) (skipn skip (Sales.sort_created_desc
          (List.filter (Sales.list_query client agent status) (sales db)))).
Proof.
  unfold Sales.list_sales, try_except, bind, store_op, gets, raise.
  destruct (existsb _ (faults db)); simpl; intros H; inversion H; reflexivity.
Qed.

Lemma list_sales_result client_id agent_id status skip limit db l db' :
  Sales.list_sales client_id agent_id status skip limit db = (inr l, db') ->
  (length l <= Pos.to_nat limit)%nat /\
  (forall s, In s l -> In s (sales db) /\ Sales.list_query client_id agent_id status s = true) /\
  Sorted (fun a b => s_created_at b <= s_created_at a)%Z l.
Proof.
  intros H. apply list_sales_inv in H. subst l. split; [apply firstn_le_length|]. split.
  - intros s Hs. apply in_firstn_skipn in Hs.
    apply (Permutation_in _ (sort_created_desc_perm _)) in Hs.
    now apply filter_In in Hs.
  - apply sorted_firstn, sorted_skipn, sort_created_desc_sorted.
Qed.

Lemma list_sales_all_listed client_id agent_id status limit db :
  existsb (String.eqb "sales.find") (faults db) = false ->
  (length (List.filter (Sales.list_query client_id agent_id status) (sales db)) <= Pos.to_nat limit)%nat ->
  exists l, fst (Sales.list_sales client_id agent_id status 0 limit db) = inr l /\
            Permutation l (List.filter (Sales.list_query client_id agent_id status) (sales db)).
Proof.
  intros Hf Hl. rewrite list_sales_ok by exact Hf. eexists; split; [reflexivity|].
  change (skipn 0 ?x) with x. rewrite firstn_all2.
  - apply sort_created_desc_perm.
  - now rewrite (Permutation_length (sort_created_desc_perm _)).
Qed.

(** X6: [list_sales] returns at most [limit] stored sales, each matching its filters, in [created_at] descending order. *)
Theorem list_sales_filtered_sorted_bounded client_id agent_id status skip limit db l db' :
  Sales.list_sales client_id agent_id status skip limit db = (inr l, db') ->
  (length l <= Pos.to_nat limit)%nat /\
  (forall s, In s l -> In s (sales db) /\ Sales.list_query client_id agent_id status s = true) /\
  Sorted (fun a b => s_created_at b <= s_created_at a)%Z l.
Proof. exact (list_sales_result client_id agent_id status skip limit db l db'). Qed.

(** X7: with the store up and at most [limit] matching sales, [list_sales] from offset 0 returns all of them. *)
Theorem list_sales_complete client_id agent_id status limit db :
  existsb (String.eqb "sales.find") (faults db) = false ->
  (length (List.filter (Sales.list_query client_id agent_id status) (sales db)) <= Pos.to_nat limit)%nat ->
  exists l, fst (Sales.list_sales client_id agent_id status 0 limit db) = inr l /\
            Permutation l (List.filter (Sales.list_query client_id agent_id status) (sales db)).
Proof. exact (list_sales_all_listed client_id agent_id status limit db). Qed.

(** X8: [list_recent_sales_for_user] with a non-empty [user_id] returns only sales whose client is that user (sales where the user is the agent are not listed). *)
Theorem list_recent_sales_for_user_client_only user_id limit db l db' :
  user_id <> "" ->
  Sales.list_recent_sales_for_user user_id limit db = (inr l, db') ->
  forall s, In s l -> s_client_id s = user_id.
Proof.
  intros Hu H s Hs. unfold Sales.list_recent_sales_for_user in H.
  apply list_sales_result in H as (_ & H & _).
  apply H in Hs as [_ Hq]. unfold Sales.list_query, Sales.str_filter in Hq.
  apply String.eqb_neq in Hu. rewrite Hu in Hq.
  apply andb_prop in Hq as [Hq _]. apply andb_prop in Hq as [Hq _].
  now apply String.eqb_eq in Hq.
Qed.

(** X9: [list_recent_sales_for_user] with an empty [user_id] applies no filter: with the store up and at most [limit] sales, it returns every sale. *)
Theorem list_recent_sales_for_user_empty_id_lists_all limit db :
  existsb (String.eqb "sales.find") (faults db) = false ->
  (length (sales db) <= Pos.to_nat limit)%nat ->
  exists l, fst (Sales.list_recent_sales_for_user "" limit db) = inr l /\ Permutation l (sales db).
Proof.
  intros Hf Hl. unfold Sales.list_recent_sales_for_user.
  assert (E : List.filter (Sales.list_query (Some "") None None) (sales db) = sales db).
  { apply forallb_filter_id. apply forallb_forall. intros x _. reflexivity. }
  destruct (list_sales_all_listed (Some "") None None limit db Hf) as (l & H1 & H2); [now rewrite E|].
  exists l. rewrite E in H2. now split.
Qed.

Lemma digits_rev_length fuel n k :
  (n < 10 ^ k)%nat -> (1 <= k)%nat -> (length (Py.digits_rev fuel n) <= k)%nat.
Proof.
  revert n k; induction fuel as [|f IH]; intros n k Hn Hk; simpl; [lia|].
  destruct (Nat.ltb n 10) eqn:E; simpl; [lia|].
  apply Nat.ltb_ge in E.
  destruct k as [|k]; [lia|].
  destruct k as [|k]; [simpl in Hn; lia|].
  assert (Hd : (n / 10 < 10 ^ S k)%nat).
  { apply Nat.Div0.div_lt_upper_bound. rewrite <- Nat.pow_succ_r'. exact Hn. }
  specialize (IH (n / 10) (S k) Hd ltac:(lia)). change (Nat.divmod n 9 0 9).1 with (n / 10)%nat. lia.
Qed.

Lemma digit_char_hex d : (d < 10)%nat -> Py.is_hex (Py.digit_char d) = true.
Proof. intros H. do 10 (destruct d as [|d]; [reflexivity|]). lia. Qed.

Lemma digits_rev_hex fuel n : forallb Py.is_hex (Py.digits_rev fuel n) = true.
Proof.
  revert n; induction fuel as [|f IH]; intros n; cbn [Py.digits_rev]; [reflexivity|].
  destruct (Nat.ltb n 10) eqn:E; cbn [forallb].
  - apply Nat.ltb_lt in E. now rewrite digit_char_hex.
  - rewrite digit_char_hex, IH; [reflexivity|]. apply Nat.mod_upper_bound; lia.
Qed.

Lemma list_ascii_of_string_append a b :
  list_ascii_of_string (String.append a b) = (list_ascii_of_string a ++ list_ascii_of_string b)%list.
Proof. induction a as [|c a IH]; simpl; [reflexivity|]. now rewrite IH. Qed.

Lemma list_ascii_of_string_of_list l : list_ascii_of_string (string_of_list_ascii l) = l.
Proof. induction l as [|c l IH]; simpl; [reflexivity|]. now rewrite IH. Qed.

Lemma string_length_list s : String.length s = length (list_ascii_of_string s).
Proof. induction s as [|c s IH]; simpl; [reflexivity|]. now rewrite IH. Qed.

Lemma oid_of_nat_valid n : (Z.of_nat n < 10 ^ 24)%Z -> Py.objectid_is_valid (Py.oid_of_nat n) = true.
Proof.
  intros Hn.
  assert (Hn' : (n < 10 ^ 24)%nat).
  { apply Nat2Z.inj_lt. rewrite Nat2Z.inj_pow. exact Hn. }
  assert (H1 : (1 <= 24)%nat) by (clear; lia).
  pose proof (digits_rev_length (S n) n 24 Hn' H1) as Hl. clear Hn Hn' H1.
  unfold Py.objectid_is_valid, Py.oid_of_nat, Py.str_of_nat.
  rewrite string_length_list, !list_ascii_of_string_append, !list_ascii_of_string_of_list, length_app,
    repeat_length, length_rev.
  rewrite string_length_list, list_ascii_of_string_of_list, length_rev.
  apply andb_true_intro; split.
  - apply Nat.eqb_eq. lia.
  - rewrite forallb_app. apply andb_true_intro; split.
    + apply forallb_forall. intros c Hc. apply repeat_spec in Hc. now subst.
    + apply forallb_forall. intros c Hc. apply in_rev in Hc.
      pose proof (digits_rev_hex (S n) n) as Hh. rewrite forallb_forall in Hh. now apply Hh.
Qed.

(** X10: a sale created by [SaleRepository.create_sale] under a fresh ObjectId is returned by [get_sale_by_id] on that id. *)
Theorem repo_create_sale_then_get mk db :
  (forall oid, s_id (mk oid) = oid) ->
  existsb (String.eqb "sales.insert_one") (faults db) = false ->
  existsb (String.eqb "sales.find_one") (faults db) = false ->
  (Z.of_nat (next_oid db) < 10 ^ 24)%Z ->
  (forall s, In s (sales db) -> s_id s <> Py.oid_of_nat (next_oid db)) ->
  exists s db', Sales.repo_create_sale None mk db = (inr (Some s), db') /\
                s = mk (Py.oid_of_nat (next_oid db)) /\
                fst (Sales.repo_get_sale_by_id (s_id s) db') = inr (Some s).
Proof.
  intros Hid Hi Hf Hn Hfresh.
  unfold Sales.repo_create_sale, try_except, bind, store_op, gets, modify, ret.
  rewrite Hi. unfold Sales.write_sale.
  cbn [add_query bump_oid set_sales faults next_oid sales]. rewrite Hf.
  eexists; eexists; split; [reflexivity|]. split; [reflexivity|].
  rewrite Hid. unfold Sales.repo_get_sale_by_id.
  rewrite oid_of_nat_valid by exact Hn. cbn [negb].
  unfold try_except, bind, store_op, gets.
  cbn [add_query bump_oid set_sales faults next_oid sales]. rewrite Hf. cbn [fst].
  f_equal. f_equal. cbn [sales add_query set_sales bump_oid].
  induction (sales db) as [|x r IH]; cbn [List.find app].
  - rewrite Hid, String.eqb_refl. reflexivity.
  - destruct (String.eqb (s_id x) (Py.oid_of_nat (next_oid db))) eqn:E.
    + apply String.eqb_eq in E. exfalso. apply (Hfresh x); [now left|exact E].
    + apply IH. intros s Hs. apply Hfresh. now right.
Qed.

Lemma Json_nested_ind (P : Json -> Prop) :
  P JNull -> (forall b, P (JBool b)) -> (forall z, P (JInt z)) -> (forall q, P (JFloat q)) ->
  (forall s, P (JStr s)) -> (forall l, Forall P l -> P (JList l)) ->
  (forall kvs, Forall (fun kv => P (snd kv)) kvs -> P (JDict kvs)) -> (forall n, P (JOther n)) ->
  forall j, P j.
Proof.
  intros H0 H1 H2 H3 H4 HL HD H7. fix IH 1. intros [|b|z|q|s|l|kvs|n].
  - exact H0.
  - exact (H1 b).
  - exact (H2 z).
  - exact (H3 q).
  - exact (H4 s).
  - apply HL. induction l as [|x r IHl]; constructor; [exact (IH x)|exact IHl].
  - apply HD. induction kvs as [|[k v] r IHr]; constructor; [exact (IH v)|exact IHr].
  - exact (H7 n).
Qed.

Lemma sanitize_list_go d n l :
  (fix go (n : nat) (l : list Json) : list Json :=
     match n, l with
     | O, _ => []
     | _, [] => []
     | S n', x :: rest => Audit.sanitize_log_data x (S d) :: go n' rest
     end) n l = map (fun x => Audit.sanitize_log_data x (S d)) (firstn n l).
Proof.
  revert l; induction n as [|n IH]; intros [|x r]; simpl; auto. now rewrite IH.
Qed.

Lemma sanitize_dict_go d kvs :
  (fix go (kvs : list (string * Json)) : list (string * Json) :=
     match kvs with
     | [] => []
     | (k, v) :: rest =>
         (if Audit.is_secret_key k then (k, JStr "*** MASKED ***")
          else (k, Audit.sanitize_log_data v (S d))) :: go rest
     end) kvs = map (sanitize_kv d) kvs.
Proof. induction kvs as [|[k v] r IH]; simpl; auto. now rewrite IH. Qed.

Lemma sanitize_unfold j d :
  Audit.sanitize_log_data j d =
  if Nat.ltb Audit.max_depth d then JStr "*** DEPTH LIMIT ***" else
  match j with
  | JDict kvs => JDict (map (sanitize_kv d) kvs)
  | JList l => JList (map (fun x => Audit.sanitize_log_data x (S d)) (firstn 50 l))
  | JStr s =>
      if Nat.ltb 500 (String.length s)
      then JStr (String.substring 0 500 s ++ "... TRUNCATED")
      else JStr s
  | JNull | JBool _ | JInt _ | JFloat _ => j
  | JOther n => JStr ("<" ++ n ++ ">")
  end.
Proof.
  destruct j; try reflexivity.
  - rewrite <- sanitize_list_go. reflexivity.
  - rewrite <- sanitize_dict_go. reflexivity.
Qed.

Lemma substring_length n s : String.length (String.substring 0 n s) = Nat.min n (String.length s).
Proof.
  revert s; induction n as [|n IH]; intros [|c s]; simpl; auto.
Qed.

Lemma string_length_append a b : String.length (a ++ b) = String.length a + String.length b.
Proof. induction a as [|c a IH]; simpl; auto. Qed.

Lemma in_firstn {A} (x : A) n l : In x (firstn n l) -> In x l.
Proof. intros H. rewrite <- (firstn_skipn n l). apply in_or_app. now left. Qed.

(** X11: the output of [sanitize_log_data] at depth [depth] is nested at most [6 - depth] levels deep. *)
Theorem sanitize_log_data_depth_bound data depth :
  (json_depth (Audit.sanitize_log_data data depth) <= 6 - depth)%nat.
Proof.
  revert depth. induction data as [ | | | | |l IHl|kvs IHkvs|] using Json_nested_ind; intros depth;
    rewrite sanitize_unfold; destruct (Nat.ltb Audit.max_depth depth) eqn:E; cbn [json_depth]; try lia.
  - destruct (Nat.ltb 500 _); cbn; lia.
  - apply Nat.ltb_ge in E. unfold Audit.max_depth in E.
    enough ((fix go (l : list Json) : nat :=
               match l with [] => 0 | x :: r => Nat.max (json_depth x) (go r) end)
              (map (fun x => Audit.sanitize_log_data x (S depth)) (firstn 50 l)) <= 5 - depth)%nat by lia.
    generalize 50%nat as n. revert IHl. clear. induction l as [|x r IH]; intros HF n; [destruct n; simpl; lia|].
    destruct n as [|n]; simpl; [lia|]. inversion HF; subst.
    specialize (H1 (S depth)). specialize (IH H2 n). lia.
  - apply Nat.ltb_ge in E. unfold Audit.max_depth in E.
    enough ((fix go (kvs : list (string * Json)) : nat :=
               match kvs with [] => 0 | kv :: r => Nat.max (json_depth (snd kv)) (go r) end)
              (map (sanitize_kv depth) kvs) <= 5 - depth)%nat by lia.
    revert IHkvs. clear - E. induction kvs as [|[k v] r IH]; intros HF; [simpl; lia|].
    inversion HF as [|? ? H1 H2]; subst. specialize (IH H2). cbn [map].
    assert (Hkv : (json_depth (snd (sanitize_kv depth (k, v))) <= 5 - depth)%nat).
    { unfold sanitize_kv; cbn [fst snd]. destruct (Audit.is_secret_key k); cbn [snd json_depth]; [lia|].
      specialize (H1 (S depth)). cbn [snd] in H1. lia. }
    lia.
Qed.

(** X12: on a JSON-typed input, every string of the output of [sanitize_log_data] has at most 513 characters and every list at most 50 elements. *)
Theorem sanitize_log_data_size_bound data depth :
  no_other data = true -> json_bounded 513 50 (Audit.sanitize_log_data data depth) = true.
Proof.
  revert depth. induction data as [ | | | | |l IHl|kvs IHkvs|] using Json_nested_ind; intros depth Hno;
    rewrite sanitize_unfold; destruct (Nat.ltb Audit.max_depth depth) eqn:E; try reflexivity.
  - destruct (Nat.ltb 500 (String.length s)) eqn:L; cbn [json_bounded]; apply Nat.leb_le.
    + rewrite string_length_append, substring_length. change (String.length "... TRUNCATED") with 13%nat. lia.
    + apply Nat.ltb_ge in L. lia.
  - cbn [json_bounded]. apply andb_true_intro; split.
    + apply Nat.leb_le. rewrite length_map. apply firstn_le_length.
    + cbn [no_other] in Hno. apply forallb_forall. intros y Hy.
      apply in_map_iff in Hy as (x & <- & Hx). apply in_firstn in Hx.
      rewrite List.Forall_forall in IHl. apply IHl; [exact Hx|].
      rewrite forallb_forall in Hno. now apply Hno.
  - cbn [json_bounded]. cbn [no_other] in Hno. apply forallb_forall. intros y Hy.
    apply in_map_iff in Hy as ([k v] & <- & Hx). unfold sanitize_kv; cbn [fst snd].
    destruct (Audit.is_secret_key k); [reflexivity|].
    rewrite List.Forall_forall in IHkvs. apply (IHkvs (k, v) Hx).
    rewrite forallb_forall in Hno. exact (Hno (k, v) Hx).
  - discriminate.
Qed.

Lemma dict_get_cons k v r key :
  dict_get ((k, v) :: r) key = if String.eqb k key then Some v else dict_get r key.
Proof. unfold dict_get. simpl. now destruct (String.eqb k key). Qed.

(** X13: below the depth limit, [sanitize_log_data] on a dict keeps its keys in order, maps every key containing a secret word to "*** MASKED ***" and sanitizes every other value one level deeper. *)
Theorem sanitize_dict_masks_secret_keys kvs depth :
  (depth <= Audit.max_depth)%nat ->
  exists kvs', Audit.sanitize_log_data (JDict kvs) depth = JDict kvs' /\
    map fst kvs' = map fst kvs /\
    (forall k, Audit.is_secret_key k = true -> In k (map fst kvs) ->
               dict_get kvs' k = Some (JStr "*** MASKED ***")) /\
    (forall k v, Audit.is_secret_key k = false -> dict_get kvs k = Some v ->
                 dict_get kvs' k = Some (Audit.sanitize_log_data v (S depth))).
Proof.
  intros Hd. rewrite sanitize_unfold.
  replace (Nat.ltb Audit.max_depth depth) with false by (symmetry; apply Nat.ltb_ge; exact Hd).
  exists (map (sanitize_kv depth) kvs). split; [reflexivity|]. split; [|split].
  - rewrite map_map. apply map_ext. intros [k v]. unfold sanitize_kv. cbn [fst]. now destruct (Audit.is_secret_key k).
  - intros k Hk Hin. clear Hd. revert Hin. induction kvs as [|[k' v'] r IH]; intros Hin; [contradiction|].
    cbn [map]. unfold sanitize_kv at 1; cbn [fst snd].
    destruct (String.eqb k' k) eqn:E.
    + apply String.eqb_eq in E; subst. rewrite Hk, dict_get_cons, String.eqb_refl. reflexivity.
    + assert (Hr : In k (map fst r)).
      { destruct Hin as [H|H]; [simpl in H; subst; now rewrite String.eqb_refl in E | exact H]. }
      destruct (Audit.is_secret_key k'); rewrite dict_get_cons, E; now apply IH.
  - intros k v Hk Hg. clear Hd. revert Hg. induction kvs as [|[k' v'] r IH]; intros Hg; [discriminate|].
    rewrite dict_get_cons in Hg. cbn [map]. unfold sanitize_kv at 1; cbn [fst snd].
    destruct (String.eqb k' k) eqn:E.
    + apply String.eqb_eq in E; subst. injection Hg as <-. rewrite Hk, dict_get_cons, String.eqb_refl. reflexivity.
    + destruct (Audit.is_secret_key k'); rewrite dict_get_cons, E; now apply IH.
Qed.





Lemma backend_channel_unsubscribed subs payload :
  Listener.listener_deliveries (Listener.subscribed_patterns Listener.REDIS_LISTEN_CHANNELS) subs
    (BACKEND_PUBLISH_EVENT_CHANNEL, payload) = [].
Proof. reflexivity. Qed.

Lemma publish_websocket_update_inv target tid ev data db r db' :
  publish_websocket_update target tid ev data db = (r, db') ->
  r = inr tt /\
  published db' = ((if redis_up db then
    [(BACKEND_PUBLISH_EVENT_CHANNEL,
      JDict [("__target__", JStr target); ("__target_id__", JStr tid);
             ("event_type", JStr ev); ("data", JDict data)])] else []) ++ published db)%list.
Proof.
  unfold publish_websocket_update, bind, publish, ret. intros Hm.
  destruct (redis_up db); simplify_eq; split; reflexivity.
Qed.

(** X15: with the configured [REDIS_LISTEN_CHANNELS], no message published by [publish_websocket_update] is delivered to any WebSocket connection. *)
Theorem publish_websocket_update_not_delivered_by_default target tid ev data subs db r db' :
  publish_websocket_update target tid ev data db = (r, db') ->
  flat_map (Listener.listener_deliveries
              (Listener.subscribed_patterns Listener.REDIS_LISTEN_CHANNELS) subs) (published db')
  = flat_map (Listener.listener_deliveries
                (Listener.subscribed_patterns Listener.REDIS_LISTEN_CHANNELS) subs) (published db).
Proof.
  intros Hm. apply publish_websocket_update_inv in Hm as [_ ->].
  destruct (redis_up db); [|reflexivity].
  cbn [app flat_map]. now rewrite backend_channel_unsubscribed.
Qed.

(** X16: a [publish_websocket_update] for a user is routed by the listener, for every subscribed pattern matching its channel, to that user's connections as [{type: event_type, payload: data}]. *)
Theorem publish_user_update_listener_round_trip tid ev data patterns subs db r db' :
  redis_up db = true -> tid <> "" ->
  publish_websocket_update "user" tid ev data db = (r, db') ->
  exists payload,
    published db' = (BACKEND_PUBLISH_EVENT_CHANNEL, payload) :: published db /\
    Listener.listener_deliveries patterns subs (BACKEND_PUBLISH_EVENT_CHANNEL, payload) =
    flat_map (fun p => if Listener.pattern_matches p BACKEND_PUBLISH_EVENT_CHANNEL
                       then map (fun c => (c, JDict [("type", JStr ev); ("payload", JDict data)]))
                                (Listener.broadcast_to_user (JStr tid) subs)
                       else []) patterns.
Proof.
  intros Hup Htid Hm. apply publish_websocket_update_inv in Hm as [_ Hp].
  rewrite Hup in Hp. eexists. split; [exact Hp|].
  unfold Listener.listener_deliveries. cbn [fst snd]. apply flat_map_ext. intros p.
  destruct (Listener.pattern_matches p BACKEND_PUBLISH_EVENT_CHANNEL); [|reflexivity].
  assert (E : String.eqb tid "" = false) by (apply String.eqb_neq; exact Htid).
  unfold Listener.handle_pmessage, Listener.route, Listener.ws_message, dict_get. simpl.
  rewrite E. reflexivity.
Qed.

Lemma dict_lookup_map_same k v d :
  existsb (fun kv => String.eqb (fst kv) k) d = true ->
  Registry.dict_lookup k (map (replace_entry k v) d) = Some v.
Proof.
  unfold Registry.dict_lookup. induction d as [|[k' a'] r IH]; [discriminate|].
  cbn [existsb map fst]. unfold replace_entry at 1. cbn [fst].
  destruct (String.eqb k' k) eqn:E; cbn [orb].
  - intros _. cbn [List.find fst]. now rewrite String.eqb_refl.
  - intros H. cbn [List.find fst]. rewrite E. exact (IH H).
Qed.

Lemma dict_lookup_map_other k k' v d :
  k' <> k -> Registry.dict_lookup k' (map (replace_entry k v) d) = Registry.dict_lookup k' d.
Proof.
  intros Hne. unfold Registry.dict_lookup. induction d as [|[k0 a0] r IH]; [reflexivity|].
  cbn [map]. unfold replace_entry at 1. cbn [fst].
  destruct (String.eqb k0 k) eqn:E.
  - apply String.eqb_eq in E; subst k0. cbn [List.find fst].
    assert (E' : String.eqb k k' = false) by (apply String.eqb_neq; congruence).
    rewrite E'. exact IH.
  - cbn [List.find fst]. destruct (String.eqb k0 k'); [reflexivity|exact IH].
Qed.

Lemma dict_lookup_app_same k v d :
  existsb (fun kv => String.eqb (fst kv) k) d = false ->
  Registry.dict_lookup k (d ++ [(k, v)])%list = Some v.
Proof.
  unfold Registry.dict_lookup. induction d as [|[k' a'] r IH].
  - intros _. cbn. now rewrite String.eqb_refl.
  - cbn [existsb fst]. intros H. apply orb_false_iff in H as [H1 H2].
    cbn [app List.find fst]. rewrite H1. exact (IH H2).
Qed.

Lemma dict_lookup_app_other k k' v d :
  k' <> k -> Registry.dict_lookup k' (d ++ [(k, v)])%list = Registry.dict_lookup k' d.
Proof.
  intros Hne. unfold Registry.dict_lookup. induction d as [|[k0 a0] r IH].
  - cbn. assert (E : String.eqb k k' = false) by (apply String.eqb_neq; congruence).
    now rewrite E.
  - cbn [app List.find fst]. destruct (String.eqb k0 k'); [reflexivity|exact IH].
Qed.

Lemma existsb_key_in k (d : Registry.Agents) :
  existsb (fun kv => String.eqb (fst kv) k) d = true <-> In k (Registry.get_registered_agents d).
Proof.
  unfold Registry.get_registered_agents. rewrite existsb_exists, in_map_iff. split.
  - intros [kv [Hin Hk]]. apply String.eqb_eq in Hk. now exists kv.
  - intros [kv [Hk Hin]]. exists kv. split; [exact Hin|]. apply String.eqb_eq. exact Hk.
Qed.

Lemma existsb_key_eq k (d : Registry.Agents) :
  existsb (fun kv => String.eqb (fst kv) k) d =
  existsb (String.eqb k) (Registry.get_registered_agents d).
Proof.
  unfold Registry.get_registered_agents. induction d as [|[k' a'] r IH]; [reflexivity|].
  cbn [existsb map fst]. now rewrite IH, String.eqb_sym.
Qed.

Lemma map_fst_replace k v (d : Registry.Agents) :
  map fst (map (replace_entry k v) d) = map fst d.
Proof.
  induction d as [|[k' a'] r IH]; [reflexivity|].
  cbn [map]. unfold replace_entry at 1. cbn [fst].
  destruct (String.eqb_spec k' k); cbn [fst]; congruence.
Qed.

Lemma dict_lookup_none k (d : Registry.Agents) :
  Registry.dict_lookup k d = None <-> ~ In k (Registry.get_registered_agents d).
Proof.
  rewrite <- existsb_key_in. unfold Registry.dict_lookup.
  induction d as [|[k' a'] r IH]; cbn [List.find existsb fst].
  - split; [discriminate|reflexivity].
  - destruct (String.eqb k' k); cbn [orb option_map]; [split; [discriminate|tauto]|exact IH].
Qed.

(** X17: [register_agent] of a valid agent makes its name resolve to it, leaves every other name as it was and adds the name at the end of [get_registered_agents] unless it was already there. *)
Theorem register_agent_lookup a agents :
  valid_agent a = true ->
  Registry.dict_lookup (Registry.agent_name a) (Registry.register_agent (Some a) agents) = Some a /\
  (forall k, k <> Registry.agent_name a ->
     Registry.dict_lookup k (Registry.register_agent (Some a) agents) = Registry.dict_lookup k agents) /\
  Registry.get_registered_agents (Registry.register_agent (Some a) agents) =
    (if existsb (String.eqb (Registry.agent_name a)) (Registry.get_registered_agents agents)
     then Registry.get_registered_agents agents
     else Registry.get_registered_agents agents ++ [Registry.agent_name a])%list.
Proof.
  unfold valid_agent. intros Hv. apply negb_true_iff in Hv.
  unfold Registry.register_agent. rewrite Hv. unfold Registry.dict_set.
  rewrite <- existsb_key_eq.
  destruct (existsb (fun kv => String.eqb (fst kv) (Registry.agent_name a)) agents) eqn:E.
  - split; [|split].
    + exact (dict_lookup_map_same _ a agents E).
    + intros k Hk. exact (dict_lookup_map_other _ k a agents Hk).
    + exact (map_fst_replace _ a agents).
  - split; [|split].
    + exact (dict_lookup_app_same _ a agents E).
    + intros k Hk. exact (dict_lookup_app_other _ k a agents Hk).
    + unfold Registry.get_registered_agents. now rewrite map_app.
Qed.

Lemma register_agent_wf ai agents :
  registry_wf agents -> registry_wf (Registry.register_agent ai agents).
Proof.
  intros (Hnd & He & Hb & Hf).
  destruct ai as [a|]; [|exact (conj Hnd (conj He (conj Hb Hf)))].
  unfold Registry.register_agent.
  destruct (String.eqb (Registry.agent_name a) "" || String.eqb (Registry.agent_name a) "base_agent")
    eqn:Hv; [exact (conj Hnd (conj He (conj Hb Hf)))|].
  apply orb_false_iff in Hv as [Hv1 Hv2].
  apply String.eqb_neq in Hv1, Hv2.
  unfold Registry.dict_set.
  destruct (existsb (fun kv => String.eqb (fst kv) (Registry.agent_name a)) agents) eqn:E.
  - unfold registry_wf, Registry.get_registered_agents.
    fold (replace_entry (Registry.agent_name a) a).
    rewrite map_fst_replace. split; [exact Hnd|]. split; [exact He|]. split; [exact Hb|].
    apply List.Forall_forall. intros kv Hin. apply in_map_iff in Hin as [kv0 [<- Hin0]].
    unfold replace_entry. destruct (String.eqb (fst kv0) (Registry.agent_name a)).
    + reflexivity.
    + exact (proj1 (List.Forall_forall _ _) Hf kv0 Hin0).
  - assert (Hni : ~ In (Registry.agent_name a) (Registry.get_registered_agents agents)).
    { rewrite <- existsb_key_in, E. discriminate. }
    unfold registry_wf, Registry.get_registered_agents in *. rewrite map_app. cbn [map fst].
    split; [|split; [|split]].
    + apply NoDup_app. split; [exact Hnd|]. split.
      * intros x Hx Hx'. apply list_elem_of_singleton in Hx'. subst x.
        apply Hni. now apply list_elem_of_In.
      * apply NoDup_singleton.
    + rewrite in_app_iff. intros [H|[H|[]]]; [exact (He H)|exact (Hv1 H)].
    + rewrite in_app_iff. intros [H|[H|[]]]; [exact (Hb H)|exact (Hv2 H)].
    + apply Forall_app. split; [exact Hf|]. constructor; [reflexivity|constructor].
Qed.

(** X18: from the empty registry, any sequence of [register_agent] calls leaves distinct names, never the empty name or "base_agent", each bound to an agent of that name. *)
Theorem registry_registrations_wf (ais : list (option Registry.Agent)) :
  registry_wf (fold_left (fun ag ai => Registry.register_agent ai ag) ais []).
Proof.
  assert (H0 : registry_wf []).
  { unfold registry_wf, Registry.get_registered_agents. cbn [map].
    split; [constructor|]. split; [intros []|]. split; [intros []|constructor]. }
  revert H0. generalize (@nil (string * Registry.Agent)).
  induction ais as [|ai r IH]; intros ag H; [exact H|].
  cbn [fold_left]. apply IH. now apply register_agent_wf.
Qed.

(** X19: the [/exec] endpoint answers a request for an unregistered agent with HTTP 404 and detail [{message: "Agent not found.", details: null}]. *)
Theorem mcp_endpoint_unknown_agent agents request currentUser trace_id :
  ~ In (Gateway.agent_name request) (Registry.get_registered_agents agents) ->
  Registry.execute_mcp_action_endpoint agents request currentUser trace_id =
  Registry.HTTPError 404 (JDict [("message", JStr "Agent not found."); ("details", JNull)]).
Proof.
  intros Hni. apply dict_lookup_none in Hni.
  unfold Registry.execute_mcp_action_endpoint, Gateway.execute_mcp_action,
    Registry.execute_agent_action. now rewrite Hni.
Qed.

(** X20: for a registered agent, the [/exec] endpoint returns a success response with the agent's result, maps an [AgentExecutionError] to its status code with its message and details, and any other exception to 500 with "Unexpected internal error: " and its message. *)
Theorem mcp_endpoint_registered_agent agents a request currentUser trace_id :
  Registry.dict_lookup (Gateway.agent_name request) agents = Some a ->
  Registry.execute_mcp_action_endpoint agents request currentUser trace_id =
  match Registry.execute a (Gateway.payload_action request, Gateway.payload_data request)
          (Gateway.build_exec_context request currentUser trace_id) with
  | inr result =>
      Registry.Response {| Registry.r_status := "success"; Registry.r_agent := Gateway.agent_name request;
                           Registry.r_action := Gateway.payload_action request;
                           Registry.r_result := result |}
  | inl (Registry.AgentExecutionError _ m d c) =>
      Registry.HTTPError c (JDict [("message", JStr m); ("details", d)])
  | inl (Registry.OtherException m) =>
      Registry.HTTPError 500 (JDict [("message", JStr ("Unexpected internal error: " ++ m));
                                     ("details", JNull)])
  end.
Proof.
  intros Hl.
  unfold Registry.execute_mcp_action_endpoint, Gateway.execute_mcp_action,
    Registry.execute_agent_action. rewrite Hl.
  destruct (Registry.execute a _ _) as [[n m d c|m]|r]; reflexivity.
Qed.

(** X21: the [/exec] endpoint never answers with its generic 500 "Internal Server Error processing MCP request.". *)
Theorem mcp_endpoint_never_generic_500 agents request currentUser trace_id :
  Registry.execute_mcp_action_endpoint agents request currentUser trace_id <>
  Registry.HTTPError 500 (JStr "Internal Server Error processing MCP request.").
Proof.
  unfold Registry.execute_mcp_action_endpoint, Gateway.execute_mcp_action,
    Registry.execute_agent_action.
  destruct (Registry.dict_lookup _ agents) as [a|]; [|discriminate].
  destruct (Registry.execute a _ _) as [[n m d c|m]|r]; discriminate.
Qed.

(** X1 witness: courier ["courier-2"] on the delivery of [db0], assigned to
    ["courier-1"]. *)
Lemma update_courier_location_unassigned_forbidden_witness :
  exists db', Delivery.update_courier_location 5 (fun _ => "T") Fixtures.delivery_id "courier-2"
                Fixtures.location0 3 Fixtures.db0 =
              (inl (HTTPException 403 "Courier not assigned to this delivery."), db') /\
              deliveries db' = deliveries Fixtures.db0 /\ published db' = published Fixtures.db0.
Proof.
  apply (update_courier_location_unassigned_forbidden 5 (fun _ => "T") Fixtures.delivery_id
           "courier-2" Fixtures.location0 3 Fixtures.db0 Fixtures.delivery0); reflexivity.
Defined.

(** X2 witness: the assigned courier on the pending delivery of [db0]. *)
Lemma update_courier_location_status_gate_witness :
  exists db', Delivery.update_courier_location 5 (fun _ => "T") Fixtures.delivery_id "courier-1"
                Fixtures.location0 3 Fixtures.db0 =
              (inl (InvalidDeliveryStatusError Fixtures.delivery_id "pending_assignment"
                      "update location"), db') /\
              deliveries db' = deliveries Fixtures.db0 /\ published db' = published Fixtures.db0.
Proof.
  apply (update_courier_location_status_gate 5 (fun _ => "T") Fixtures.delivery_id
           "courier-1" Fixtures.location0 3 Fixtures.db0 Fixtures.delivery0);
    [reflexivity | reflexivity | reflexivity | reflexivity | cbn; intuition discriminate].
Defined.

(** X3 witness: the forbidden call of the X1 witness. *)
Lemma update_courier_location_failure_writes_nothing_witness :
  exists e db', Delivery.update_courier_location 5 (fun _ => "T") Fixtures.delivery_id "courier-2"
                  Fixtures.location0 3 Fixtures.db0 = (inl e, db') /\
                deliveries db' = deliveries Fixtures.db0 /\ published db' = published Fixtures.db0.
Proof.
  do 2 eexists. split; [reflexivity|].
  eapply (update_courier_location_failure_writes_nothing 5 (fun _ => "T") Fixtures.delivery_id
           "courier-2" Fixtures.location0 3 Fixtures.db0). reflexivity.
Defined.

(** X4 witness: the assigned courier on the delivery in transit. *)
Lemma update_courier_location_success_witness :
  exists upd db', Delivery.update_courier_location 5 (fun _ => "T") Fixtures.delivery_id "courier-1"
                    Fixtures.location0 3 Fixtures.db_in_transit = (inr upd, db') /\
  exists d, deliveries Fixtures.db_in_transit !! Fixtures.delivery_id = Some d /\
    Delivery.courier_assigned d "courier-1" = true /\
    In (d_current_status d) Delivery.location_update_statuses /\
    upd = with_location d Fixtures.location0 5 /\
    deliveries db' = <[Fixtures.delivery_id := upd]> (deliveries Fixtures.db_in_transit) /\
    published db' = ((if redis_up Fixtures.db_in_transit
                      then [location_update_message (d_client_profile_id d) Fixtures.delivery_id
                              Fixtures.location0 "T"]
                      else []) ++ published Fixtures.db_in_transit)%list.
Proof.
  do 2 eexists. split; [reflexivity|].
  eapply (update_courier_location_success 5 (fun _ => "T") Fixtures.delivery_id "courier-1"
           Fixtures.location0 3 Fixtures.db_in_transit). reflexivity.
Defined.

(** X5 witness: setting the status of the delivery of [db0] at time 5. *)
Lemma update_delivery_stamps_repository_clock_witness :
  exists d db', Delivery.update_delivery 5 Fixtures.delivery_id
                  [Delivery.SetCurrentStatus IN_TRANSIT; Delivery.SetUpdatedAt 3] Fixtures.db0 =
                (inr (Some d), db') /\
                d_updated_at d = 5%Z /\ deliveries db' !! Fixtures.delivery_id = Some d.
Proof.
  remember (Delivery.update_delivery 5 Fixtures.delivery_id
              [Delivery.SetCurrentStatus IN_TRANSIT; Delivery.SetUpdatedAt 3] Fixtures.db0) as p eqn:E.
  vm_compute in E. subst p. do 2 eexists. split; [reflexivity|].
  eapply (update_delivery_stamps_repository_clock 5 Fixtures.delivery_id
           [Delivery.SetCurrentStatus IN_TRANSIT; Delivery.SetUpdatedAt 3] Fixtures.db0);
    [discriminate | vm_compute; reflexivity].
Defined.

(** X6 witness: the unfiltered listing of [db1]. *)
Lemma list_sales_filtered_sorted_bounded_witness :
  exists l db', Sales.list_sales None None None 0 20 Fixtures.db1 = (inr l, db') /\
    (length l <= Pos.to_nat 20)%nat /\
    (forall s, In s l -> In s (sales Fixtures.db1) /\ Sales.list_query None None None s = true) /\
    Sorted (fun a b => s_created_at b <= s_created_at a)%Z l.
Proof.
  remember (Sales.list_sales None None None 0 20 Fixtures.db1) as p eqn:E.
  vm_compute in E. subst p. do 2 eexists. split; [reflexivity|].
  eapply (list_sales_filtered_sorted_bounded None None None 0 20 Fixtures.db1). vm_compute. reflexivity.
Defined.

(** X7 witness: the sales of [Fixtures.client_id] in [db1]. *)
Lemma list_sales_complete_witness :
  exists l, fst (Sales.list_sales (Some Fixtures.client_id) None None 0 20 Fixtures.db1) = inr l /\
            Permutation l (List.filter (Sales.list_query (Some Fixtures.client_id) None None)
                             (sales Fixtures.db1)).
Proof.
  apply (list_sales_complete (Some Fixtures.client_id) None None 20 Fixtures.db1);
    [vm_compute; reflexivity | apply Nat.leb_le; vm_compute; reflexivity].
Defined.

(** X8 witness: the recent sales of [Fixtures.client_id] in [db1]. *)
Lemma list_recent_sales_for_user_client_only_witness :
  exists l db', Sales.list_recent_sales_for_user Fixtures.client_id 20 Fixtures.db1 = (inr l, db') /\
    forall s, In s l -> s_client_id s = Fixtures.client_id.
Proof.
  remember (Sales.list_recent_sales_for_user Fixtures.client_id 20 Fixtures.db1) as p eqn:E.
  vm_compute in E. subst p. do 2 eexists. split; [reflexivity|].
  eapply (list_recent_sales_for_user_client_only Fixtures.client_id 20 Fixtures.db1);
    [intros H; vm_compute in H; discriminate H | vm_compute; reflexivity].
Defined.

(** X9 witness: the empty user id on [db1]. *)
Lemma list_recent_sales_for_user_empty_id_lists_all_witness :
  exists l, fst (Sales.list_recent_sales_for_user "" 20 Fixtures.db1) = inr l /\
            Permutation l (sales Fixtures.db1).
Proof.
  apply (list_recent_sales_for_user_empty_id_lists_all 20 Fixtures.db1);
    [vm_compute; reflexivity | apply Nat.leb_le; vm_compute; reflexivity].
Defined.

(** X10 witness: a sale of [db0]'s client created at time 100. *)
Lemma repo_create_sale_then_get_witness :
  exists s db', Sales.repo_create_sale None
                  (Sales.sale_doc_of 100 (Fixtures.sale_input [Fixtures.item "SKU-1" 2]) [] 0)
                  Fixtures.db0 = (inr (Some s), db') /\
                s = Sales.sale_doc_of 100 (Fixtures.sale_input [Fixtures.item "SKU-1" 2]) [] 0
                      (Py.oid_of_nat (next_oid Fixtures.db0)) /\
                fst (Sales.repo_get_sale_by_id (s_id s) db') = inr (Some s).
Proof.
  apply (repo_create_sale_then_get
           (Sales.sale_doc_of 100 (Fixtures.sale_input [Fixtures.item "SKU-1" 2]) [] 0) Fixtures.db0);
    [intros oid; reflexivity | reflexivity | reflexivity | reflexivity | intros s []].
Defined.

(** X12 witness: a dict with a secret and a list. *)
Lemma sanitize_log_data_size_bound_witness :
  json_bounded 513 50
    (Audit.sanitize_log_data (JDict [("password", JStr "hunter2"); ("items", JList [JInt 1])]) 0) = true.
Proof. apply sanitize_log_data_size_bound. reflexivity. Defined.

(** X13 witness: the same dict at depth 0. *)
Lemma sanitize_dict_masks_secret_keys_witness :
  exists kvs', Audit.sanitize_log_data (JDict [("password", JStr "hunter2"); ("items", JList [JInt 1])]) 0
                 = JDict kvs' /\
    map fst kvs' = map fst [("password", JStr "hunter2"); ("items", JList [JInt 1])] /\
    (forall k, Audit.is_secret_key k = true ->
               In k (map fst [("password", JStr "hunter2"); ("items", JList [JInt 1])]) ->
               dict_get kvs' k = Some (JStr "*** MASKED ***")) /\
    (forall k v, Audit.is_secret_key k = false ->
                 dict_get [("password", JStr "hunter2"); ("items", JList [JInt 1])] k = Some v ->
                 dict_get kvs' k = Some (Audit.sanitize_log_data v 1)).
Proof. apply sanitize_dict_masks_secret_keys. apply Nat.le_0_l. Defined.


(** X15 witness: the location update of the X4 witness, on [db0]. *)
Lemma publish_websocket_update_not_delivered_by_default_witness :
  exists r db', publish_websocket_update "user" Fixtures.client_id "delivery_location_update" []
                  Fixtures.db0 = (r, db') /\
  flat_map (Listener.listener_deliveries
              (Listener.subscribed_patterns Listener.REDIS_LISTEN_CHANNELS) []) (published db')
  = flat_map (Listener.listener_deliveries
                (Listener.subscribed_patterns Listener.REDIS_LISTEN_CHANNELS) []) (published Fixtures.db0).
Proof.
  do 2 eexists. split; [reflexivity|].
  eapply (publish_websocket_update_not_delivered_by_default "user" Fixtures.client_id
           "delivery_location_update" [] [] Fixtures.db0). reflexivity.
Defined.

(** X16 witness: a user update under a ["backend.*"] subscription. *)
Lemma publish_user_update_listener_round_trip_witness :
  exists r db', publish_websocket_update "user" "U1" "ping" [] Fixtures.db0 = (r, db') /\
  exists payload,
    published db' = (BACKEND_PUBLISH_EVENT_CHANNEL, payload) :: published Fixtures.db0 /\
    Listener.listener_deliveries ["backend.*"] Fixtures.subscribers (BACKEND_PUBLISH_EVENT_CHANNEL, payload) =
    flat_map (fun p => if Listener.pattern_matches p BACKEND_PUBLISH_EVENT_CHANNEL
                       then map (fun c => (c, JDict [("type", JStr "ping"); ("payload", JDict [])]))
                                (Listener.broadcast_to_user (JStr "U1") Fixtures.subscribers)
                       else []) ["backend.*"].
Proof.
  do 2 eexists. split; [reflexivity|].
  eapply (publish_user_update_listener_round_trip "U1" "ping" [] ["backend.*"] Fixtures.subscribers
           Fixtures.db0); [reflexivity | discriminate | reflexivity].
Defined.

(** X17 witness: registering [echo_agent] in the empty registry. *)
Lemma register_agent_lookup_witness :
  Registry.dict_lookup "sales_agent" (Registry.register_agent (Some Fixtures.echo_agent) []) =
    Some Fixtures.echo_agent /\
  (forall k, k <> "sales_agent" ->
     Registry.dict_lookup k (Registry.register_agent (Some Fixtures.echo_agent) []) =
     Registry.dict_lookup k []) /\
  Registry.get_registered_agents (Registry.register_agent (Some Fixtures.echo_agent) []) =
    (if existsb (String.eqb "sales_agent") (Registry.get_registered_agents [])
     then Registry.get_registered_agents [] else Registry.get_registered_agents [] ++ ["sales_agent"])%list.
Proof. apply (register_agent_lookup Fixtures.echo_agent []). reflexivity. Defined.

(** X19 witness: [plain_request] on the empty registry. *)
Lemma mcp_endpoint_unknown_agent_witness :
  Registry.execute_mcp_action_endpoint [] Fixtures.plain_request Fixtures.principal None =
  Registry.HTTPError 404 (JDict [("message", JStr "Agent not found."); ("details", JNull)]).
Proof. apply mcp_endpoint_unknown_agent. intros H. exact H. Defined.

(** X20 witness: [plain_request] once [echo_agent] is registered. *)
Lemma mcp_endpoint_registered_agent_witness :
  Registry.execute_mcp_action_endpoint (Registry.register_agent (Some Fixtures.echo_agent) [])
    Fixtures.plain_request Fixtures.principal None =
  Registry.Response {| Registry.r_status := "success"; Registry.r_agent := "sales_agent";
                       Registry.r_action := "create_sale"; Registry.r_result := JStr "create_sale" |}.
Proof.
  rewrite (mcp_endpoint_registered_agent (Registry.register_agent (Some Fixtures.echo_agent) [])
             Fixtures.echo_agent Fixtures.plain_request Fixtures.principal None eq_refl).
  reflexivity.
Defined.
